(** * ActivityLogs: the activity-log model of erxes-api

    A shallow embedding of [src/db/models/ActivityLogs.js]: the mongoose
    schema of an activity log, the static helpers of the [ActivityLog]
    class, and the part of the document store they call
    ([Model.create], [Model.findOne]).

    A promise is a function of the collection: it gives the outcome
    (resolved or rejected), the collection it leaves, and the journal of
    the store calls it made, in order.  A rejection keeps the records
    written before it: nothing is rolled back.  Calls run one after the
    other, and the store is taken as reachable: an insert fails only by
    validation, a search never fails. *)

From Stdlib Require Import String List Bool ZArith Arith Lia DecimalString.
Import ListNotations.
Open Scope string_scope.
Open Scope list_scope.

(** ** Constants of [data/constants] *)

(** Modelled from the spec: [ACTIVITY_PERFORMER_TYPES] of [data/constants] is
    missing; "one of {System, User, Customer}". *)
Module ACTIVITY_PERFORMER_TYPES.
Inductive t := SYSTEM | USER | CUSTOMER.
Definition eqb (a b : t) : bool :=
  match a, b with
  | SYSTEM, SYSTEM | USER, USER | CUSTOMER, CUSTOMER => true
  | _, _ => false
  end.
End ACTIVITY_PERFORMER_TYPES.

(** Modelled from the spec: [ACTIVITY_TYPES] of [data/constants] is missing;
    the five kinds the helpers write. *)
Module ACTIVITY_TYPES.
Inductive t := CUSTOMER | COMPANY | INTERNAL_NOTE | CONVERSATION_MESSAGE | SEGMENT.
Definition eqb (a b : t) : bool :=
  match a, b with
  | CUSTOMER, CUSTOMER | COMPANY, COMPANY | INTERNAL_NOTE, INTERNAL_NOTE
  | CONVERSATION_MESSAGE, CONVERSATION_MESSAGE | SEGMENT, SEGMENT => true
  | _, _ => false
  end.
End ACTIVITY_TYPES.

(** Modelled from the spec: [ACTIVITY_ACTIONS] of [data/constants] is
    missing; "one of {Create, Update, ...}". *)
Module ACTIVITY_ACTIONS.
Inductive t := CREATE | UPDATE.
Definition eqb (a b : t) : bool :=
  match a, b with
  | CREATE, CREATE | UPDATE, UPDATE => true
  | _, _ => false
  end.
End ACTIVITY_ACTIONS.

(** Modelled from the spec: [COC_CONTENT_TYPES] of [data/constants] is
    missing; "one of {Customer, Company}". *)
Module COC_CONTENT_TYPES.
Inductive t := CUSTOMER | COMPANY.
Definition eqb (a b : t) : bool :=
  match a, b with
  | CUSTOMER, CUSTOMER | COMPANY, COMPANY => true
  | _, _ => false
  end.
End COC_CONTENT_TYPES.

(** ** JavaScript values *)

(** A value of a [SchemaTypes.Mixed] path. *)
#[local] Unset Elimination Schemes.
Inductive Mixed :=
| MNull
| MBoolean (b : bool)
| MNumber (z : Z)
| MString (s : string)
| MArray (items : list Mixed)
| MObject (fields : list (string * Mixed)).
#[local] Set Elimination Schemes.

(** An identifier is a string that may be missing ([undefined] or [null]):
    the code itself tests for it ([!customer._id], [user._id]). *)
Definition Id := option string.

Definition Id_eqb (a b : Id) : bool :=
  match a, b with
  | Some x, Some y => String.eqb x y
  | None, None => true
  | _, _ => false
  end.

(** Truthiness of an identifier: [undefined], [null] and the empty string
    are falsy. *)
Definition truthy (i : Id) : bool :=
  match i with
  | Some s => negb (String.eqb s "")
  | None => false
  end.

(** ** The schema *)

(** [ActionPerformer]: the performer of the action, as stored. *)
Record ActionPerformer := {
  performer_type : ACTIVITY_PERFORMER_TYPES.t;
  performer_id : Id
}.

(** [Activity]: the action that is being performed, as stored. *)
Record Activity := {
  activity_type : ACTIVITY_TYPES.t;
  activity_action : ACTIVITY_ACTIONS.t;
  activity_content : Mixed;
  activity_id : Id
}.

(** [COC]: the customer or company the log is related to. *)
Record COC := {
  coc_id : Id;
  coc_type : COC_CONTENT_TYPES.t
}.

(** A stored document of [ActivityLogSchema]. *)
Record ActivityLogSchema := {
  _id : string;
  activity : Activity;
  performedBy : ActionPerformer;
  coc : COC;
  createdAt : Z
}.

(** The collection, in insertion order. *)
Definition Collection := list ActivityLogSchema.

(** ** Documents handed to the store, before the schema defaults *)

(** A performer object: [type] may be left out (the schema default is
    [SYSTEM]), and so may [id]. *)
Record Performer := {
  p_type : option ACTIVITY_PERFORMER_TYPES.t;
  p_id : Id
}.

Record ActivityDoc := {
  a_type : ACTIVITY_TYPES.t;
  a_action : ACTIVITY_ACTIONS.t;
  a_content : option Mixed;
  a_id : Id
}.

(** The object given to [Model.create]. *)
Record CreateDoc := {
  d_performedBy : Performer;
  d_activity : ActivityDoc;
  d_coc : COC
}.

(** The argument of [createDoc]: [{ performer, ...doc }], where the rest
    [doc] carries [activity] and [coc], as every caller in the file passes
    them. *)
Record CreateDocArg := {
  performer : option Performer;
  arg_activity : ActivityDoc;
  arg_coc : COC
}.

(** ** Entities read by the helpers.  Payload fields are present, as the
    description of the inputs gives them. *)

Record InternalNote := {
  note_id : Id;
  note_content : Mixed;
  note_contentTypeId : Id;
  note_contentType : COC_CONTENT_TYPES.t
}.

Record User := { user_id : Id }.

Record Message := {
  message_id : Id;
  message_content : Mixed
}.

Record Customer := {
  customer_id : Id;
  customer_name : Mixed;
  companyIds : option (list string)
}.

Record Company := {
  company_id : Id;
  company_name : Mixed
}.

Record Segment := {
  segment_id : Id;
  segment_name : Mixed;
  segment_contentType : COC_CONTENT_TYPES.t
}.

(** The customer or company related to a segment: [createSegmentLog] reads
    its [_id] only. *)
Record Related := { related_id : Id }.

(** ** Queries *)

(** One key of a filter object given to [findOne]. *)
Inductive Condition :=
| activity_type_is (t : ACTIVITY_TYPES.t)
| activity_action_is (a : ACTIVITY_ACTIONS.t)
| activity_id_is (i : Id)
| coc_type_is (t : COC_CONTENT_TYPES.t)
| performedBy_type_is (t : ACTIVITY_PERFORMER_TYPES.t)
| coc_id_is (i : Id).

Definition Query := list Condition.

Definition holds (r : ActivityLogSchema) (c : Condition) : bool :=
  match c with
  | activity_type_is t => ACTIVITY_TYPES.eqb (activity_type (activity r)) t
  | activity_action_is a => ACTIVITY_ACTIONS.eqb (activity_action (activity r)) a
  | activity_id_is i => Id_eqb (activity_id (activity r)) i
  | coc_type_is t => COC_CONTENT_TYPES.eqb (coc_type (coc r)) t
  | performedBy_type_is t => ACTIVITY_PERFORMER_TYPES.eqb (performer_type (performedBy r)) t
  | coc_id_is i => Id_eqb (coc_id (coc r)) i
  end.

(** A document matches a filter when every key of the filter holds. *)
Definition matches (q : Query) (r : ActivityLogSchema) : bool :=
  forallb (holds r) q.

(** ** Promises over the store *)

Inductive Rejection :=
| Error (message : string)
| ValidationError (d : CreateDoc).

Inductive Outcome (A : Type) :=
| Resolved (a : A)
| Rejected (e : Rejection).
Arguments Resolved {A} a.
Arguments Rejected {A} e.

(** A call to the store, as the journal keeps it. *)
Inductive StoreCall :=
| call_findOne (q : Query)
| call_create (d : CreateDoc).

Record Run (A : Type) := {
  outcome : Outcome A;
  final : Collection;
  journal : list StoreCall
}.
Arguments Build_Run {A} outcome final journal.
Arguments outcome {A} r.
Arguments final {A} r.
Arguments journal {A} r.

Definition Promise (A : Type) := Collection -> Run A.

Definition resolve {A} (a : A) : Promise A :=
  fun s => {| outcome := Resolved a; final := s; journal := [] |}.

Definition throw {A} (e : Rejection) : Promise A :=
  fun s => {| outcome := Rejected e; final := s; journal := [] |}.

(** [await p] followed by [k]. *)
Definition bind {A B} (p : Promise A) (k : A -> Promise B) : Promise B :=
  fun s =>
    let r := p s in
    match outcome r with
    | Resolved a =>
        let r' := k a (final r) in
        {| outcome := outcome r'; final := final r';
           journal := journal r ++ journal r' |}
    | Rejected e =>
        {| outcome := Rejected e; final := final r; journal := journal r |}
    end.

Declare Scope promise_scope.
Delimit Scope promise_scope with promise.
Notation "x <- 'await' p ;; k" := (bind p (fun x => k))
  (at level 100, p at next level, right associativity) : promise_scope.
Notation "'await' p ;; k" := (bind p (fun _ => k))
  (at level 100, p at next level, right associativity) : promise_scope.
Open Scope promise_scope.

(** [for (let x of xs) { body }] *)
Fixpoint for_of {A} (xs : list A) (body : A -> Promise unit) : Promise unit :=
  match xs with
  | [] => resolve tt
  | x :: rest => await body x ;; for_of rest body
  end.

(** Is a call an insert? *)
Definition is_create (c : StoreCall) : bool :=
  match c with call_create _ => true | call_findOne _ => false end.

(** ** Sample data *)

(** A store that asks for the required [coc.id], a non-empty string; the
    enumerations of the schema hold by typing. *)
Definition required_coc_id (d : CreateDoc) : bool := truthy (coc_id (d_coc d)).

(** Identifiers and times handed out by the number of records stored. *)
Definition sample_id (s : Collection) : string :=
  "log" ++ NilEmpty.string_of_uint (Nat.to_uint (length s)).

Definition sample_now (s : Collection) : Z :=
  (1500000000000 + Z.of_nat (length s))%Z.

Definition sample_message : Message :=
  {| message_id := Some "m1"; message_content := MString "hello" |}.

Definition sample_customer : Customer :=
  {| customer_id := Some "cust1"; customer_name := MString "Acme";
     companyIds := Some ["co1"; "co2"] |}.

(** A customer that lists one of its companies twice. *)
Definition repeating_customer : Customer :=
  {| customer_id := Some "cust1"; customer_name := MString "Acme";
     companyIds := Some ["co1"; "co2"; "co1"] |}.

(** A customer with no company. *)
Definition lone_customer : Customer :=
  {| customer_id := Some "cust1"; customer_name := MString "Acme";
     companyIds := None |}.

(** A customer with no [_id]. *)
Definition unsaved_customer : Customer :=
  {| customer_id := None; customer_name := MString "Acme";
     companyIds := Some ["co1"] |}.

Definition sample_user : User := {| user_id := Some "u1" |}.

Definition sample_note : InternalNote :=
  {| note_id := Some "n1"; note_content := MString "call back";
     note_contentTypeId := Some "cust1";
     note_contentType := COC_CONTENT_TYPES.CUSTOMER |}.

Definition sample_segment : Segment :=
  {| segment_id := Some "seg1"; segment_name := MString "vip";
     segment_contentType := COC_CONTENT_TYPES.CUSTOMER |}.

Definition sample_related : Related := {| related_id := Some "cust1" |}.

(** A conversation-message record of [sample_message] for the customer
    "cust1", by the given performer; the [n]-th record of its collection. *)
Definition message_record (n : nat) (p : ACTIVITY_PERFORMER_TYPES.t)
  : ActivityLogSchema :=
  {| _id := "log" ++ NilEmpty.string_of_uint (Nat.to_uint n);
     activity :=
       {| activity_type := ACTIVITY_TYPES.CONVERSATION_MESSAGE;
          activity_action := ACTIVITY_ACTIONS.CREATE;
          activity_content := MString "hello";
          activity_id := Some "m1" |};
     performedBy := {| performer_type := p; performer_id := None |};
     coc := {| coc_id := Some "cust1"; coc_type := COC_CONTENT_TYPES.CUSTOMER |};
     createdAt := (1500000000000 + Z.of_nat n)%Z |}.

(** A collection that already holds the same customer-performed record
    twice, as two writers that both saw "not found" leave it, or two direct
    calls of [cocCreate]. *)
Definition duplicated_store : Collection :=
  [ message_record 0 ACTIVITY_PERFORMER_TYPES.CUSTOMER;
    message_record 1 ACTIVITY_PERFORMER_TYPES.CUSTOMER ].

(** A collection that holds the message for the same customer, logged by
    the system and by a user. *)
Definition other_performers_store : Collection :=
  [ message_record 0 ACTIVITY_PERFORMER_TYPES.SYSTEM;
    message_record 1 ACTIVITY_PERFORMER_TYPES.USER ].

(** A collection in which "cust1" is already logged in [sample_segment], as
    an earlier call of [createSegmentLog] leaves it. *)
Definition segment_store : Collection :=
  [ {| _id := "log0";
       activity :=
         {| activity_type := ACTIVITY_TYPES.SEGMENT;
            activity_action := ACTIVITY_ACTIONS.CREATE;
            activity_content := MString "vip";
            activity_id := Some "seg1" |};
       performedBy :=
         {| performer_type := ACTIVITY_PERFORMER_TYPES.SYSTEM; performer_id := None |};
       coc := {| coc_id := Some "cust1"; coc_type := COC_CONTENT_TYPES.CUSTOMER |};
       createdAt := 1500000000000 |} ].

Definition sample_company : Company :=
  {| company_id := Some "co1"; company_name := MString "Acme Ltd" |}.

(** A customer one of whose company identifiers is the empty string, which
    [required_coc_id] refuses. *)
Definition blank_company_customer : Customer :=
  {| customer_id := Some "cust1"; customer_name := MString "Acme";
     companyIds := Some ["co1"; ""; "co2"] |}.

(** A related customer with no [_id], which [required_coc_id] refuses. *)
Definition unsaved_related : Related := {| related_id := None |}.

Section ActivityLog.

(** The validation of [Model.create] (enum and required checks of the
    schema, and what [field] of [./utils] adds to each path). *)
Variable validate : CreateDoc -> bool.

(** The identifier given to a new document ([pkey]) and the clock
    ([Date.now]), as the collection stands when it is written. *)
Variable Random_id : Collection -> string.
Variable Date_now : Collection -> Z.

(** The schema defaults: [performedBy.type] is [SYSTEM], [activity.content]
    is the empty object. *)
Definition withDefaults (d : CreateDoc) (i : string) (now : Z) : ActivityLogSchema :=
  {| _id := i;
     activity :=
       {| activity_type := a_type (d_activity d);
          activity_action := a_action (d_activity d);
          activity_content :=
            match a_content (d_activity d) with
            | Some c => c
            | None => MObject []
            end;
          activity_id := a_id (d_activity d) |};
     performedBy :=
       {| performer_type :=
            match p_type (d_performedBy d) with
            | Some t => t
            | None => ACTIVITY_PERFORMER_TYPES.SYSTEM
            end;
          performer_id := p_id (d_performedBy d) |};
     coc := d_coc d;
     createdAt := now |}.

(** [this.create]: [Model.create] of mongoose, the document store.  It
    validates the document, fills in the defaults ([_id], [createdAt] and
    those of the schema), appends the record and resolves with it; a
    document that fails validation is rejected and nothing is written. *)
Definition create (d : CreateDoc) : Promise ActivityLogSchema :=
  fun s =>
    if validate d then
      let r := withDefaults d (Random_id s) (Date_now s) in
      {| outcome := Resolved r; final := s ++ [r]; journal := [call_create d] |}
    else
      {| outcome := Rejected (ValidationError d); final := s;
         journal := [call_create d] |}.

(** [this.findOne]: [Model.findOne] of mongoose.  It resolves with the
    first document that matches the filter, or with [null]. *)
Definition findOne (q : Query) : Promise (option ActivityLogSchema) :=
  fun s =>
    {| outcome := Resolved (find (matches q) s); final := s;
       journal := [call_findOne q] |}.

(** The object [createDoc] hands to [create]: [{ performedBy, ...doc }]. *)
Definition docOf (arg : CreateDocArg) : CreateDoc :=
  let performedBy :=
    {| p_type := Some ACTIVITY_PERFORMER_TYPES.SYSTEM; p_id := None |} in
  let performedBy :=
    match performer arg with
    | Some p => p
    | None => performedBy
    end in
  {| d_performedBy := performedBy;
     d_activity := arg_activity arg;
     d_coc := arg_coc arg |}.

(** [static createDoc({ performer, ...doc })] *)
Definition createDoc (arg : CreateDocArg) : Promise ActivityLogSchema :=
  create (docOf arg).

(** The argument [createInternalNoteLog] gives to [createDoc]. *)
Definition internalNoteDoc (internalNote : InternalNote) (user : User) : CreateDocArg :=
  {| arg_activity :=
       {| a_type := ACTIVITY_TYPES.INTERNAL_NOTE;
          a_action := ACTIVITY_ACTIONS.CREATE;
          a_id := note_id internalNote;
          a_content := Some (note_content internalNote) |};
     performer :=
       Some {| p_type := Some ACTIVITY_PERFORMER_TYPES.USER;
               p_id := user_id user |};
     arg_coc :=
       {| coc_id := note_contentTypeId internalNote;
          coc_type := note_contentType internalNote |} |}.

(** [static createInternalNoteLog(internalNote, user)] *)
Definition createInternalNoteLog (internalNote : InternalNote) (user : User)
  : Promise ActivityLogSchema :=
  createDoc (internalNoteDoc internalNote user).

(** The filter of [cocFindOne], key by key. *)
Definition cocQuery (messageId cocId : Id) (cocType : COC_CONTENT_TYPES.t) : Query :=
  [ activity_type_is ACTIVITY_TYPES.CONVERSATION_MESSAGE;
    activity_action_is ACTIVITY_ACTIONS.CREATE;
    activity_id_is messageId;
    coc_type_is cocType;
    performedBy_type_is ACTIVITY_PERFORMER_TYPES.CUSTOMER;
    coc_id_is cocId ].

(** [static cocFindOne(messageId, cocId, cocType)] *)
Definition cocFindOne (messageId cocId : Id) (cocType : COC_CONTENT_TYPES.t)
  : Promise (option ActivityLogSchema) :=
  findOne (cocQuery messageId cocId cocType).

(** The argument [cocCreate] gives to [createDoc]. *)
Definition cocDoc (messageId : Id) (content : Mixed) (cocId : Id)
           (cocType : COC_CONTENT_TYPES.t) : CreateDocArg :=
  {| arg_activity :=
       {| a_type := ACTIVITY_TYPES.CONVERSATION_MESSAGE;
          a_action := ACTIVITY_ACTIONS.CREATE;
          a_content := Some content;
          a_id := messageId |};
     performer :=
       Some {| p_type := Some ACTIVITY_PERFORMER_TYPES.CUSTOMER; p_id := None |};
     arg_coc := {| coc_type := cocType; coc_id := cocId |} |}.

(** [static cocCreate(messageId, content, cocId, cocType)] *)
Definition cocCreate (messageId : Id) (content : Mixed) (cocId : Id)
           (cocType : COC_CONTENT_TYPES.t) : Promise ActivityLogSchema :=
  createDoc (cocDoc messageId content cocId cocType).

(** The message of the error [createConversationMessageLog] throws. *)
Definition customer_must_be_supplied_for_conversations : string :=
  "'customer' must be supplied when adding activity log for conversations".

(** The body of the loop over [customer.companyIds]. *)
Definition companyStep (message : Message) (companyId : string) : Promise unit :=
  foundLog <- await cocFindOne (message_id message) (Some companyId)
                               COC_CONTENT_TYPES.COMPANY ;;
  match foundLog with
  | None =>
      await cocCreate (message_id message) (message_content message)
                      (Some companyId) COC_CONTENT_TYPES.COMPANY ;;
      resolve tt
  | Some _ => resolve tt
  end.

(** [static async createConversationMessageLog(message, customer)];
    the result is [None] when the function ends without [return]. *)
Definition createConversationMessageLog (message : Message)
           (customer : option Customer) : Promise (option ActivityLogSchema) :=
  match customer with
  | None => throw (Error customer_must_be_supplied_for_conversations)
  | Some c =>
      if negb (truthy (customer_id c)) then
        throw (Error customer_must_be_supplied_for_conversations)
      else
        await (match companyIds c with
               | Some ids =>
                   if (0 <? length ids)%nat
                   then for_of ids (companyStep message)
                   else resolve tt
               | None => resolve tt
               end) ;;
        foundLog <- await cocFindOne (message_id message) (customer_id c)
                                     COC_CONTENT_TYPES.CUSTOMER ;;
        match foundLog with
        | None =>
            log <- await cocCreate (message_id message) (message_content message)
                                   (customer_id c) COC_CONTENT_TYPES.CUSTOMER ;;
            resolve (Some log)
        | Some _ => resolve None
        end
  end.

(** The filter of [createSegmentLog]. *)
Definition segmentQuery (segment : Segment) (customerId : Id) : Query :=
  [ activity_type_is ACTIVITY_TYPES.SEGMENT;
    activity_action_is ACTIVITY_ACTIONS.CREATE;
    activity_id_is (segment_id segment);
    coc_type_is (segment_contentType segment);
    coc_id_is customerId ].

(** The argument [createSegmentLog] gives to [createDoc]. *)
Definition segmentDoc (segment : Segment) (customerId : Id) : CreateDocArg :=
  {| arg_activity :=
       {| a_type := ACTIVITY_TYPES.SEGMENT;
          a_action := ACTIVITY_ACTIONS.CREATE;
          a_content := Some (segment_name segment);
          a_id := segment_id segment |};
     arg_coc :=
       {| coc_type := segment_contentType segment; coc_id := customerId |};
     performer := None |}.

(** [static async createSegmentLog(segment, customer)] *)
Definition createSegmentLog (segment : Segment) (customer : option Related)
  : Promise ActivityLogSchema :=
  match customer with
  | None => throw (Error "customer must be supplied")
  | Some c =>
      foundSegment <- await findOne (segmentQuery segment (related_id c)) ;;
      match foundSegment with
      | Some found => resolve found
      | None => createDoc (segmentDoc segment (related_id c))
      end
  end.

(** [(user && user._id && { type: USER, id: user._id }) || null] *)
Definition registrationPerformer (user : option User) : option Performer :=
  match user with
  | Some u =>
      if truthy (user_id u)
      then Some {| p_type := Some ACTIVITY_PERFORMER_TYPES.USER; p_id := user_id u |}
      else None
  | None => None
  end.

(** The argument [createCustomerRegistrationLog] gives to [createDoc]. *)
Definition customerRegistrationDoc (customer : Customer) (user : option User)
  : CreateDocArg :=
  let performer := registrationPerformer user in
  {| arg_activity :=
       {| a_type := ACTIVITY_TYPES.CUSTOMER;
          a_action := ACTIVITY_ACTIONS.CREATE;
          a_content := Some (customer_name customer);
          a_id := customer_id customer |};
     arg_coc :=
       {| coc_type := COC_CONTENT_TYPES.CUSTOMER; coc_id := customer_id customer |};
     performer := performer |}.

(** [static createCustomerRegistrationLog(customer, user)] *)
Definition createCustomerRegistrationLog (customer : Customer) (user : option User)
  : Promise ActivityLogSchema :=
  createDoc (customerRegistrationDoc customer user).

(** The argument [createCompanyRegistrationLog] gives to [createDoc]. *)
Definition companyRegistrationDoc (company : Company) (user : option User)
  : CreateDocArg :=
  let performer := registrationPerformer user in
  {| arg_activity :=
       {| a_type := ACTIVITY_TYPES.COMPANY;
          a_action := ACTIVITY_ACTIONS.CREATE;
          a_content := Some (company_name company);
          a_id := company_id company |};
     arg_coc :=
       {| coc_type := COC_CONTENT_TYPES.COMPANY; coc_id := company_id company |};
     performer := performer |}.

(** [static createCompanyRegistrationLog(company, user)] *)
Definition createCompanyRegistrationLog (company : Company) (user : option User)
  : Promise ActivityLogSchema :=
  createDoc (companyRegistrationDoc company user).

(** ** Vocabulary of the statements *)

(** The company identifiers the loop goes through. *)
Definition company_ids (c : Customer) : list string :=
  match companyIds c with
  | Some ids => ids
  | None => []
  end.

(** The filter of the duplicate check for one company of a message. *)
Definition companyQuery (message : Message) (companyId : string) : Query :=
  cocQuery (message_id message) (Some companyId) COC_CONTENT_TYPES.COMPANY.

(** The filter of the duplicate check for the customer of a message. *)
Definition customerQuery (message : Message) (c : Customer) : Query :=
  cocQuery (message_id message) (customer_id c) COC_CONTENT_TYPES.CUSTOMER.

(** The document inserted for one company of a message. *)
Definition companyDoc (message : Message) (companyId : string) : CreateDoc :=
  docOf (cocDoc (message_id message) (message_content message)
                (Some companyId) COC_CONTENT_TYPES.COMPANY).

(** The document inserted for the customer of a message. *)
Definition customerDoc (message : Message) (c : Customer) : CreateDoc :=
  docOf (cocDoc (message_id message) (message_content message)
                (customer_id c) COC_CONTENT_TYPES.CUSTOMER).

(** The coc targets of a call: every company, then the customer. *)
Definition targets (c : Customer) : list (Id * COC_CONTENT_TYPES.t) :=
  map (fun i => (Some i, COC_CONTENT_TYPES.COMPANY)) (company_ids c)
  ++ [(customer_id c, COC_CONTENT_TYPES.CUSTOMER)].

(** The store accepts every document a conversation call may insert. *)
Definition conversationValid (message : Message) (c : Customer) : bool :=
  forallb (fun i => validate (companyDoc message i)) (company_ids c)
  && validate (customerDoc message c).

(** The record [create] writes for a document into a collection. *)
Definition written (d : CreateDoc) (s : Collection) : ActivityLogSchema :=
  withDefaults d (Random_id s) (Date_now s).

(** How many documents of a collection match a filter. *)
Definition count_matching (q : Query) (s : Collection) : nat :=
  length (filter (matches q) s).

(** Does some document of a collection match a filter? *)
Definition has_matching (q : Query) (s : Collection) : bool :=
  existsb (matches q) s.

(** The keys of [cocFindOne] other than [performedBy.type]. *)
Definition sameMessageAndCoc (messageId cocId : Id) (cocType : COC_CONTENT_TYPES.t)
           (r : ActivityLogSchema) : bool :=
  matches [ activity_type_is ACTIVITY_TYPES.CONVERSATION_MESSAGE;
            activity_action_is ACTIVITY_ACTIONS.CREATE;
            activity_id_is messageId;
            coc_type_is cocType;
            coc_id_is cocId ] r.

(** The inserts among the calls of a journal. *)
Definition inserts (j : list StoreCall) : list StoreCall :=
  filter is_create j.

(** Two calls in sequence with the same arguments: the second runs on
    the collection the first one leaves. *)
Definition twice {A} (p : Promise A) (s : Collection) : Run A * Run A :=
  let r1 := p s in (r1, p (final r1)).

(** The searches among the calls of a journal. *)
Definition searches (j : list StoreCall) : list StoreCall :=
  filter (fun c => negb (is_create c)) j.

(** The identifiers of a list that are not [present], each at its first
    occurrence only, in the order of the list. *)
Fixpoint first_missing (present : string -> bool) (ids : list string) : list string :=
  match ids with
  | [] => []
  | i :: rest =>
      if present i then first_missing present rest
      else i :: first_missing (fun x => String.eqb x i || present x) rest
  end.

(** The records a call has appended to the collection it started from. *)
Definition appended {A} (s : Collection) (r : Run A) : Collection :=
  skipn (length s) (final r).

(** A record the conversation call writes: for a company or for the
    customer of the message. *)
Definition conversation_written (m : Message) (c : Customer) (r : ActivityLogSchema) : Prop :=
  exists s', (exists i, r = written (companyDoc m i) s') \/ r = written (customerDoc m c) s'.

(** The performer a registration log gets from the user document. *)
Definition registered_by (user : option User) : ActionPerformer :=
  match user with
  | Some u =>
      if truthy (user_id u)
      then {| performer_type := ACTIVITY_PERFORMER_TYPES.USER; performer_id := user_id u |}
      else {| performer_type := ACTIVITY_PERFORMER_TYPES.SYSTEM; performer_id := None |}
  | None => {| performer_type := ACTIVITY_PERFORMER_TYPES.SYSTEM; performer_id := None |}
  end.

(** ** Equality tests *)

Lemma performer_eqb_eq a b : ACTIVITY_PERFORMER_TYPES.eqb a b = true <-> a = b.
Proof. destruct a, b; simpl; split; congruence. Qed.

Lemma activity_type_eqb_eq a b : ACTIVITY_TYPES.eqb a b = true <-> a = b.
Proof. destruct a, b; simpl; split; congruence. Qed.

Lemma action_eqb_eq a b : ACTIVITY_ACTIONS.eqb a b = true <-> a = b.
Proof. destruct a, b; simpl; split; congruence. Qed.

Lemma coc_type_eqb_eq a b : COC_CONTENT_TYPES.eqb a b = true <-> a = b.
Proof. destruct a, b; simpl; split; congruence. Qed.

Lemma Id_eqb_eq a b : Id_eqb a b = true <-> a = b.
Proof.
  destruct a as [x|], b as [y|]; simpl; try (split; congruence).
  rewrite String.eqb_eq. split; congruence.
Qed.

Lemma Id_eqb_refl a : Id_eqb a a = true.
Proof. apply Id_eqb_eq. reflexivity. Qed.

Lemma coc_type_eqb_refl a : COC_CONTENT_TYPES.eqb a a = true.
Proof. destruct a; reflexivity. Qed.

(** ** The filters, read as conjunctions *)

Lemma matches_cocQuery (m c : Id) (t : COC_CONTENT_TYPES.t) (r : ActivityLogSchema) :
  matches (cocQuery m c t) r = true <->
  activity_type (activity r) = ACTIVITY_TYPES.CONVERSATION_MESSAGE /\
  activity_action (activity r) = ACTIVITY_ACTIONS.CREATE /\
  activity_id (activity r) = m /\
  coc_type (coc r) = t /\
  performer_type (performedBy r) = ACTIVITY_PERFORMER_TYPES.CUSTOMER /\
  coc_id (coc r) = c.
Proof.
  unfold matches, cocQuery; simpl.
  rewrite !andb_true_iff, activity_type_eqb_eq, action_eqb_eq, !Id_eqb_eq,
    coc_type_eqb_eq, performer_eqb_eq.
  tauto.
Qed.

Lemma matches_segmentQuery (g : Segment) (c : Id) (r : ActivityLogSchema) :
  matches (segmentQuery g c) r = true <->
  activity_type (activity r) = ACTIVITY_TYPES.SEGMENT /\
  activity_action (activity r) = ACTIVITY_ACTIONS.CREATE /\
  activity_id (activity r) = segment_id g /\
  coc_type (coc r) = segment_contentType g /\
  coc_id (coc r) = c.
Proof.
  unfold matches, segmentQuery; simpl.
  rewrite !andb_true_iff, activity_type_eqb_eq, action_eqb_eq, !Id_eqb_eq,
    coc_type_eqb_eq.
  tauto.
Qed.

(** The record written for one coc of a message matches the check of
    another coc exactly when type and identifier agree. *)
Lemma matches_cocQuery_written (m : Id) (content : Mixed) (c c' : Id)
      (t t' : COC_CONTENT_TYPES.t) (s : Collection) :
  matches (cocQuery m c t) (written (docOf (cocDoc m content c' t')) s)
  = COC_CONTENT_TYPES.eqb t' t && Id_eqb c' c.
Proof.
  unfold matches, cocQuery, written; simpl.
  rewrite Id_eqb_refl. simpl. rewrite andb_true_r. reflexivity.
Qed.

Lemma matches_segmentQuery_written (g : Segment) (c : Id) (s : Collection) :
  matches (segmentQuery g c) (written (docOf (segmentDoc g c)) s) = true.
Proof.
  unfold matches, segmentQuery, written; simpl.
  rewrite !Id_eqb_refl, coc_type_eqb_refl. reflexivity.
Qed.

(** ** Counting and searching in a collection that grows *)

Lemma count_matching_app q s s' :
  count_matching q (s ++ s') = count_matching q s + count_matching q s'.
Proof. unfold count_matching. rewrite filter_app, length_app. reflexivity. Qed.

Lemma has_matching_app q s s' :
  has_matching q (s ++ s') = has_matching q s || has_matching q s'.
Proof. apply existsb_app. Qed.

Lemma count_matching_one q r :
  count_matching q [r] = if matches q r then 1 else 0.
Proof. unfold count_matching; simpl. destruct (matches q r); reflexivity. Qed.

Lemma has_matching_one q r : has_matching q [r] = matches q r.
Proof. unfold has_matching; simpl. apply orb_false_r. Qed.

Lemma has_matching_find q s :
  has_matching q s = match find (matches q) s with Some _ => true | None => false end.
Proof.
  induction s as [|r s IH]; simpl; [reflexivity|].
  destruct (matches q r); simpl; auto.
Qed.

Lemma has_matching_count q s :
  has_matching q s = negb (count_matching q s =? 0)%nat.
Proof.
  unfold count_matching.
  induction s as [|r s IH]; simpl; [reflexivity|].
  destruct (matches q r); simpl; auto.
Qed.

Lemma find_app_fresh q s s' :
  find (matches q) s = None -> find (matches q) (s ++ s') = find (matches q) s'.
Proof.
  induction s as [|x s IH]; simpl; [reflexivity|].
  destruct (matches q x); [discriminate | auto].
Qed.

(** ** One check-then-insert pair *)

Lemma matches_company_written m i i' s :
  matches (companyQuery m i) (written (companyDoc m i') s) = String.eqb i' i.
Proof.
  unfold companyQuery, companyDoc. rewrite matches_cocQuery_written. reflexivity.
Qed.

Lemma matches_customer_written_company m c i s :
  matches (customerQuery m c) (written (companyDoc m i) s) = false.
Proof.
  unfold customerQuery, companyDoc. rewrite matches_cocQuery_written. reflexivity.
Qed.

Lemma matches_company_written_customer m c i s :
  matches (companyQuery m i) (written (customerDoc m c) s) = false.
Proof.
  unfold companyQuery, customerDoc. rewrite matches_cocQuery_written. reflexivity.
Qed.

Lemma matches_customer_written m c s :
  matches (customerQuery m c) (written (customerDoc m c) s) = true.
Proof.
  unfold customerQuery, customerDoc. rewrite matches_cocQuery_written.
  rewrite Id_eqb_refl. reflexivity.
Qed.

Lemma companyStep_found m i s :
  has_matching (companyQuery m i) s = true ->
  companyStep m i s =
  {| outcome := Resolved tt; final := s;
     journal := [call_findOne (companyQuery m i)] |}.
Proof.
  rewrite has_matching_find. intros H.
  unfold companyStep, cocFindOne, findOne, bind, companyQuery in *; simpl.
  destruct (find _ s); [reflexivity | discriminate].
Qed.

Lemma companyStep_fresh m i s :
  has_matching (companyQuery m i) s = false ->
  validate (companyDoc m i) = true ->
  companyStep m i s =
  {| outcome := Resolved tt; final := s ++ [written (companyDoc m i) s];
     journal := [call_findOne (companyQuery m i); call_create (companyDoc m i)] |}.
Proof.
  rewrite has_matching_find. intros H V.
  unfold companyStep, cocFindOne, findOne, bind, companyQuery in *; simpl.
  destruct (find _ s); [discriminate|].
  unfold cocCreate, createDoc, create, companyDoc in *; simpl.
  rewrite V. reflexivity.
Qed.

Lemma bind_resolved {A B} (p : Promise A) (k : A -> Promise B) s a s' j :
  p s = {| outcome := Resolved a; final := s'; journal := j |} ->
  bind p k s =
  {| outcome := outcome (k a s'); final := final (k a s');
     journal := j ++ journal (k a s') |}.
Proof. intros H. unfold bind. rewrite H. reflexivity. Qed.

Lemma for_of_cons {A} (x : A) rest body s :
  for_of (x :: rest) body s =
  bind (body x) (fun _ => for_of rest body) s.
Proof. reflexivity. Qed.

(** ** The loop over the companies *)

(** When every company already has its record the loop only searches. *)
Lemma for_of_companies_found m ids : forall s,
  forallb (fun i => has_matching (companyQuery m i) s) ids = true ->
  for_of ids (companyStep m) s =
  {| outcome := Resolved tt; final := s;
     journal := map (fun i => call_findOne (companyQuery m i)) ids |}.
Proof.
  induction ids as [|i rest IH]; intros s H; [reflexivity|].
  simpl in H. apply andb_true_iff in H as [Hi Hrest].
  rewrite for_of_cons. unfold bind.
  rewrite (companyStep_found _ _ _ Hi); simpl.
  rewrite (IH s Hrest); reflexivity.
Qed.

(** What the loop appends: company records only, one for each company
    that had none, whatever the number of times it is listed. *)
Lemma for_of_companies m ids : forall s,
  forallb (fun i => validate (companyDoc m i)) ids = true ->
  exists added j,
    for_of ids (companyStep m) s =
    {| outcome := Resolved tt; final := s ++ added; journal := j |}
    /\ Forall (fun r => exists i s', In i ids /\ r = written (companyDoc m i) s') added
    /\ (forall i, count_matching (companyQuery m i) added =
                  if negb (has_matching (companyQuery m i) s)
                     && existsb (String.eqb i) ids
                  then 1 else 0)
    /\ length (inserts j) = length added.
Proof.
  induction ids as [|i0 rest IH]; intros s V.
  - exists [], []. rewrite app_nil_r. repeat split; auto.
    intros i. rewrite andb_false_r. reflexivity.
  - simpl in V. apply andb_true_iff in V as [V0 Vrest].
    rewrite for_of_cons. unfold bind.
    destruct (has_matching (companyQuery m i0) s) eqn:H0.
    + rewrite (companyStep_found _ _ _ H0); simpl.
      destruct (IH s Vrest) as (added & j & E & F & C & L).
      rewrite E; simpl.
      exists added, (call_findOne (companyQuery m i0) :: j).
      repeat split; auto.
      * eapply Forall_impl; [|exact F].
        intros r (i & s' & Hin & Hr). exists i, s'. split; [right|]; auto.
      * intros i. rewrite C. simpl.
        destruct (String.eqb_spec i i0) as [->|]; simpl; [|reflexivity].
        rewrite H0. reflexivity.
    + rewrite (companyStep_fresh _ _ _ H0 V0); simpl.
      destruct (IH (s ++ [written (companyDoc m i0) s]) Vrest)
        as (added & j & E & F & C & L).
      rewrite E; simpl.
      exists (written (companyDoc m i0) s :: added),
        (call_findOne (companyQuery m i0) :: call_create (companyDoc m i0) :: j).
      repeat split.
      * rewrite <- app_assoc. reflexivity.
      * constructor.
        -- exists i0, s. split; [left|]; auto.
        -- eapply Forall_impl; [|exact F].
           intros r (i & s' & Hin & Hr). exists i, s'. split; [right|]; auto.
      * intros i.
        change (written (companyDoc m i0) s :: added)
          with ([written (companyDoc m i0) s] ++ added).
        rewrite count_matching_app, C, has_matching_app.
        rewrite count_matching_one, has_matching_one.
        rewrite matches_company_written, (String.eqb_sym i0 i).
        cbn [existsb].
        destruct (String.eqb_spec i i0) as [->|]; simpl.
        -- rewrite H0. simpl. reflexivity.
        -- rewrite orb_false_r. reflexivity.
      * simpl. rewrite L. reflexivity.
Qed.

(** ** The whole conversation call *)

(** The guard on [companyIds] only skips a loop that would do nothing. *)
Lemma companies_guard m c s :
  (match companyIds c with
   | Some ids =>
       if (0 <? length ids)%nat
       then for_of ids (companyStep m)
       else resolve tt
   | None => resolve tt
   end) s = for_of (company_ids c) (companyStep m) s.
Proof.
  unfold company_ids. destruct (companyIds c) as [[|i ids]|]; reflexivity.
Qed.

Lemma conversation_unfold m c s :
  truthy (customer_id c) = true ->
  createConversationMessageLog m (Some c) s =
  bind (for_of (company_ids c) (companyStep m))
       (fun _ =>
          bind (cocFindOne (message_id m) (customer_id c) COC_CONTENT_TYPES.CUSTOMER)
               (fun foundLog =>
                  match foundLog with
                  | None =>
                      bind (cocCreate (message_id m) (message_content m)
                                      (customer_id c) COC_CONTENT_TYPES.CUSTOMER)
                           (fun log => resolve (Some log))
                  | Some _ => resolve None
                  end)) s.
Proof.
  intros T. unfold createConversationMessageLog. rewrite T. simpl.
  unfold bind at 1. rewrite companies_guard. reflexivity.
Qed.

(** The customer-level pair, run on a collection. *)
Lemma customer_pair_found m c s :
  has_matching (customerQuery m c) s = true ->
  bind (cocFindOne (message_id m) (customer_id c) COC_CONTENT_TYPES.CUSTOMER)
       (fun foundLog =>
          match foundLog with
          | None =>
              bind (cocCreate (message_id m) (message_content m)
                              (customer_id c) COC_CONTENT_TYPES.CUSTOMER)
                   (fun log => resolve (Some log))
          | Some _ => resolve None
          end) s =
  {| outcome := Resolved None; final := s;
     journal := [call_findOne (customerQuery m c)] |}.
Proof.
  rewrite has_matching_find. intros H.
  unfold cocFindOne, findOne, bind, customerQuery in *; simpl.
  destruct (find _ s); [reflexivity | discriminate].
Qed.

Lemma customer_pair_fresh m c s :
  has_matching (customerQuery m c) s = false ->
  validate (customerDoc m c) = true ->
  bind (cocFindOne (message_id m) (customer_id c) COC_CONTENT_TYPES.CUSTOMER)
       (fun foundLog =>
          match foundLog with
          | None =>
              bind (cocCreate (message_id m) (message_content m)
                              (customer_id c) COC_CONTENT_TYPES.CUSTOMER)
                   (fun log => resolve (Some log))
          | Some _ => resolve None
          end) s =
  {| outcome := Resolved (Some (written (customerDoc m c) s));
     final := s ++ [written (customerDoc m c) s];
     journal := [call_findOne (customerQuery m c); call_create (customerDoc m c)] |}.
Proof.
  rewrite has_matching_find. intros H V.
  unfold cocFindOne, findOne, bind, customerQuery in *; simpl.
  destruct (find _ s); [discriminate|].
  unfold cocCreate, createDoc, create, customerDoc in *; simpl.
  rewrite V. reflexivity.
Qed.

(** Company records never answer the customer-level check. *)
Lemma has_customer_added m c added :
  Forall (fun r => exists i s', r = written (companyDoc m i) s') added ->
  has_matching (customerQuery m c) added = false.
Proof.
  induction 1 as [|r added (i & s' & ->) _ IH]; [reflexivity|].
  unfold has_matching in *; cbn [existsb].
  rewrite matches_customer_written_company, IH. reflexivity.
Qed.

Lemma count_customer_added m c added :
  Forall (fun r => exists i s', r = written (companyDoc m i) s') added ->
  count_matching (customerQuery m c) added = 0.
Proof.
  intros F. pose proof (has_customer_added m c added F) as H.
  rewrite has_matching_count in H.
  destruct (Nat.eqb_spec (count_matching (customerQuery m c) added) 0);
    [assumption | discriminate].
Qed.

(** A run of the call on valid input: the company records the loop
    appends, then the customer-level pair. *)
Lemma conversation_run m c s :
  truthy (customer_id c) = true ->
  conversationValid m c = true ->
  exists added j,
    Forall (fun r => exists i s', r = written (companyDoc m i) s') added
    /\ (forall i, count_matching (companyQuery m i) added =
                  if negb (has_matching (companyQuery m i) s)
                     && existsb (String.eqb i) (company_ids c)
                  then 1 else 0)
    /\ length (inserts j) = length added
    /\ createConversationMessageLog m (Some c) s =
       if has_matching (customerQuery m c) s
       then {| outcome := Resolved None; final := s ++ added;
               journal := j ++ [call_findOne (customerQuery m c)] |}
       else {| outcome := Resolved (Some (written (customerDoc m c) (s ++ added)));
               final := (s ++ added) ++ [written (customerDoc m c) (s ++ added)];
               journal := j ++ [call_findOne (customerQuery m c);
                                call_create (customerDoc m c)] |}.
Proof.
  intros T V. unfold conversationValid in V.
  apply andb_true_iff in V as [Vs Vc].
  destruct (for_of_companies m (company_ids c) s Vs) as (added & j & E & F & C & L).
  assert (F' : Forall (fun r => exists i s', r = written (companyDoc m i) s') added).
  { eapply Forall_impl; [|exact F]. intros r (i & s' & _ & Hr). eauto. }
  exists added, j. repeat split; auto.
  rewrite (conversation_unfold m c s T).
  unfold bind at 1. rewrite E. cbn [outcome final journal].
  assert (H : has_matching (customerQuery m c) (s ++ added)
              = has_matching (customerQuery m c) s).
  { rewrite has_matching_app, (has_customer_added m c added F'). apply orb_false_r. }
  destruct (has_matching (customerQuery m c) s) eqn:Hc.
  - rewrite (customer_pair_found m c _ H). reflexivity.
  - rewrite (customer_pair_fresh m c _ H Vc). reflexivity.
Qed.

(** A run of the call when every target already has its record: only
    searches, and no record returned. *)
Lemma conversation_found m c s :
  truthy (customer_id c) = true ->
  forallb (fun i => has_matching (companyQuery m i) s) (company_ids c) = true ->
  has_matching (customerQuery m c) s = true ->
  createConversationMessageLog m (Some c) s =
  {| outcome := Resolved None; final := s;
     journal := map (fun i => call_findOne (companyQuery m i)) (company_ids c)
                ++ [call_findOne (customerQuery m c)] |}.
Proof.
  intros T Hs Hc.
  rewrite (conversation_unfold m c s T).
  unfold bind at 1. rewrite (for_of_companies_found m _ s Hs).
  cbn [outcome final journal].
  rewrite (customer_pair_found m c s Hc). reflexivity.
Qed.

Lemma inserts_app j j' : inserts (j ++ j') = inserts j ++ inserts j'.
Proof. apply filter_app. Qed.

Lemma inserts_findOnes {A} (f : A -> Query) xs :
  inserts (map (fun x => call_findOne (f x)) xs) = [].
Proof. induction xs; simpl; auto. Qed.

(** What a call on valid input appends, target by target. *)
Lemma conversation_added m c s :
  truthy (customer_id c) = true ->
  conversationValid m c = true ->
  exists added v,
    outcome (createConversationMessageLog m (Some c) s) = Resolved v
    /\ final (createConversationMessageLog m (Some c) s) = s ++ added
    /\ (forall i, count_matching (companyQuery m i) added =
                  if negb (has_matching (companyQuery m i) s)
                     && existsb (String.eqb i) (company_ids c)
                  then 1 else 0)
    /\ count_matching (customerQuery m c) added =
       (if has_matching (customerQuery m c) s then 0 else 1)
    /\ length (inserts (journal (createConversationMessageLog m (Some c) s)))
       = length added
    /\ (has_matching (customerQuery m c) s = false ->
        exists s', v = Some (written (customerDoc m c) s')
                   /\ In (written (customerDoc m c) s') added).
Proof.
  intros T V.
  destruct (conversation_run m c s T V) as (added & j & F & C & L & E).
  rewrite E. destruct (has_matching (customerQuery m c) s) eqn:Hc.
  - exists added, None. cbn [outcome final journal].
    repeat split; auto; try discriminate.
    + apply count_customer_added; assumption.
    + rewrite inserts_app. cbn. rewrite app_nil_r. assumption.
  - exists (added ++ [written (customerDoc m c) (s ++ added)]),
      (Some (written (customerDoc m c) (s ++ added))).
    cbn [outcome final journal]. repeat split.
    + rewrite app_assoc. reflexivity.
    + intros i. rewrite count_matching_app, count_matching_one, C.
      rewrite matches_company_written_customer. apply Nat.add_0_r.
    + rewrite count_matching_app, count_matching_one.
      rewrite (count_customer_added m c added F), matches_customer_written.
      reflexivity.
    + rewrite inserts_app, !length_app, L. reflexivity.
    + intros _. exists (s ++ added). split; [reflexivity|].
      apply in_or_app. right. left. reflexivity.
Qed.

Lemma count_grows n (b : bool) :
  b = negb (n =? 0)%nat -> n + (if b then 0 else 1) = Nat.max 1 n.
Proof.
  intros ->. destruct (Nat.eqb_spec n 0); cbn [negb]; lia.
Qed.

Lemma In_existsb_eqb i ids : In i ids -> existsb (String.eqb i) ids = true.
Proof.
  intros H. apply existsb_exists. exists i. split; [assumption|].
  apply String.eqb_refl.
Qed.

(** After a call on valid input every target has a record. *)
Lemma conversation_all_present m c s :
  truthy (customer_id c) = true ->
  conversationValid m c = true ->
  forallb (fun i => has_matching (companyQuery m i)
                      (final (createConversationMessageLog m (Some c) s)))
          (company_ids c) = true
  /\ has_matching (customerQuery m c)
       (final (createConversationMessageLog m (Some c) s)) = true.
Proof.
  intros T V.
  destruct (conversation_added m c s T V) as (added & v & _ & E & C & Cc & _).
  rewrite E. split.
  - apply forallb_forall. intros i Hi.
    rewrite has_matching_app.
    destruct (has_matching (companyQuery m i) s) eqn:H; [reflexivity|].
    rewrite (has_matching_count _ added), C, H, (In_existsb_eqb i _ Hi).
    reflexivity.
  - rewrite has_matching_app.
    destruct (has_matching (customerQuery m c) s) eqn:H; [reflexivity|].
    rewrite (has_matching_count _ added), Cc. reflexivity.
Qed.

(** The second of two calls in sequence only searches. *)
Lemma conversation_second_call m c s :
  truthy (customer_id c) = true ->
  conversationValid m c = true ->
  snd (twice (createConversationMessageLog m (Some c)) s) =
  {| outcome := Resolved None;
     final := final (createConversationMessageLog m (Some c) s);
     journal := map (fun i => call_findOne (companyQuery m i)) (company_ids c)
                ++ [call_findOne (customerQuery m c)] |}.
Proof.
  intros T V. unfold twice; cbn [snd].
  destruct (conversation_all_present m c s T V) as [Hs Hc].
  apply conversation_found; assumption.
Qed.

(** The customer-performer key, split off the other keys of the check. *)
Lemma cocQuery_performer_key (m id : Id) t r :
  matches (cocQuery m id t) r =
  sameMessageAndCoc m id t r
  && ACTIVITY_PERFORMER_TYPES.eqb (performer_type (performedBy r))
       ACTIVITY_PERFORMER_TYPES.CUSTOMER.
Proof.
  unfold sameMessageAndCoc, matches, cocQuery; cbn [forallb holds].
  repeat (destruct (ACTIVITY_TYPES.eqb _ _) || destruct (ACTIVITY_ACTIONS.eqb _ _)
          || destruct (Id_eqb _ _) || destruct (COC_CONTENT_TYPES.eqb _ _)
          || destruct (ACTIVITY_PERFORMER_TYPES.eqb _ _)); reflexivity.
Qed.

(** ** Rejected calls *)

(** C3: for every message, [createConversationMessageLog] called with a
    customer that is null or absent, or whose [_id] is missing or empty,
    is rejected with the error "'customer' must be supplied ..." before
    any call to the store: the journal is empty and the collection is the
    one the call started from. *)
Theorem conversation_without_customer_rejected
        (message : Message) (customer : option Customer) (s : Collection) :
  (customer = None \/
   exists c, customer = Some c /\ truthy (customer_id c) = false) ->
  createConversationMessageLog message customer s =
  {| outcome := Rejected (Error customer_must_be_supplied_for_conversations);
     final := s;
     journal := [] |}.
Proof.
  intros [-> | (c & -> & T)]; [reflexivity|].
  unfold createConversationMessageLog. rewrite T. reflexivity.
Qed.

(** C7: for every segment, [createSegmentLog] called with an absent
    customer or company is rejected with the error "customer must be
    supplied" before any call to the store: nothing is searched, nothing
    is inserted, the collection is unchanged. *)
Theorem segment_without_target_rejected (segment : Segment) (s : Collection) :
  createSegmentLog segment None s =
  {| outcome := Rejected (Error "customer must be supplied");
     final := s;
     journal := [] |}.
Proof. reflexivity. Qed.

(** ** Unconditional inserts *)

Lemma createDoc_accepted arg s :
  validate (docOf arg) = true ->
  createDoc arg s =
  {| outcome := Resolved (written (docOf arg) s);
     final := s ++ [written (docOf arg) s];
     journal := [call_create (docOf arg)] |}.
Proof. intros V. unfold createDoc, create. rewrite V. reflexivity. Qed.

(** C4: for every document the store accepts, [createDoc] called with no
    performer (omitted or null) resolves with the record it has appended,
    whose [performedBy] is [{type: SYSTEM}]; and so does
    [createCustomerRegistrationLog] for a null user and for a user whose
    [_id] is missing or empty. *)
Theorem default_performer_is_system :
  (forall (arg : CreateDocArg) (s : Collection),
      performer arg = None ->
      validate (docOf arg) = true ->
      exists r,
        createDoc arg s =
        {| outcome := Resolved r; final := s ++ [r];
           journal := [call_create (docOf arg)] |}
        /\ performedBy r =
           {| performer_type := ACTIVITY_PERFORMER_TYPES.SYSTEM;
              performer_id := None |})
  /\
  (forall (customer : Customer) (user : option User) (s : Collection),
      (user = None \/ exists u, user = Some u /\ truthy (user_id u) = false) ->
      validate (docOf (customerRegistrationDoc customer user)) = true ->
      exists r,
        createCustomerRegistrationLog customer user s =
        {| outcome := Resolved r; final := s ++ [r];
           journal := [call_create (docOf (customerRegistrationDoc customer user))] |}
        /\ performedBy r =
           {| performer_type := ACTIVITY_PERFORMER_TYPES.SYSTEM;
              performer_id := None |}).
Proof.
  assert (D : forall arg s,
             performer arg = None ->
             validate (docOf arg) = true ->
             exists r,
               createDoc arg s =
               {| outcome := Resolved r; final := s ++ [r];
                  journal := [call_create (docOf arg)] |}
               /\ performedBy r =
                  {| performer_type := ACTIVITY_PERFORMER_TYPES.SYSTEM;
                     performer_id := None |}).
  { intros arg s P V. exists (written (docOf arg) s). split.
    - apply createDoc_accepted; assumption.
    - unfold written, withDefaults, docOf. rewrite P. reflexivity. }
  split; [exact D|].
  intros customer user s U V.
  unfold createCustomerRegistrationLog. apply D; [|assumption].
  unfold customerRegistrationDoc; cbn [performer].
  destruct U as [-> | (u & -> & T)]; [reflexivity|].
  unfold registrationPerformer. rewrite T. reflexivity.
Qed.

(** C5: for every note and user, and whatever the collection holds,
    [createInternalNoteLog] makes one call to the store, an insert, with no
    search before it; when the store accepts the document the call
    resolves with the one record it has appended, which has
    [activity = {type: INTERNAL_NOTE, action: CREATE, id: note._id,
    content: note.content}], [performedBy = {type: USER, id: user._id}]
    and [coc = {id: note.contentTypeId, type: note.contentType}]. *)
Theorem internal_note_logged (note : InternalNote) (user : User) (s : Collection) :
  journal (createInternalNoteLog note user s)
  = [call_create (docOf (internalNoteDoc note user))]
  /\ (validate (docOf (internalNoteDoc note user)) = true ->
      exists r,
        createInternalNoteLog note user s =
        {| outcome := Resolved r; final := s ++ [r];
           journal := [call_create (docOf (internalNoteDoc note user))] |}
        /\ activity r =
           {| activity_type := ACTIVITY_TYPES.INTERNAL_NOTE;
              activity_action := ACTIVITY_ACTIONS.CREATE;
              activity_content := note_content note;
              activity_id := note_id note |}
        /\ performedBy r =
           {| performer_type := ACTIVITY_PERFORMER_TYPES.USER;
              performer_id := user_id user |}
        /\ coc r =
           {| coc_id := note_contentTypeId note;
              coc_type := note_contentType note |}).
Proof.
  split.
  - unfold createInternalNoteLog, createDoc, create.
    destruct (validate _); reflexivity.
  - intros V. exists (written (docOf (internalNoteDoc note user)) s).
    split; [|repeat split].
    unfold createInternalNoteLog. apply createDoc_accepted; assumption.
Qed.

(** ** The duplicate check of conversation messages *)

(** Records of the same message and coc that no customer performed do not
    answer the check. *)
Lemma other_performers_not_found (m id : Id) t s :
  (forall r, In r s -> sameMessageAndCoc m id t r = true ->
             performer_type (performedBy r) = ACTIVITY_PERFORMER_TYPES.SYSTEM
             \/ performer_type (performedBy r) = ACTIVITY_PERFORMER_TYPES.USER) ->
  has_matching (cocQuery m id t) s = false.
Proof.
  intros H. unfold has_matching.
  destruct (existsb (matches (cocQuery m id t)) s) eqn:E; [|reflexivity].
  apply existsb_exists in E as (r & Hin & Hm).
  rewrite cocQuery_performer_key in Hm.
  apply andb_true_iff in Hm as [Hsame Hp].
  apply performer_eqb_eq in Hp.
  destruct (H r Hin Hsame); congruence.
Qed.

(** C6: the duplicate check of [createConversationMessageLog] matches a
    record exactly when it agrees on the five other keys and its
    [performedBy.type] is CUSTOMER.  So when the collection holds, for the
    message and the targets of the call, only records performed by SYSTEM
    or USER, none of them counts as a duplicate: the call appends a new
    record performed by CUSTOMER for every target, and resolves with the
    one of the customer. *)
Theorem duplicate_check_keys_on_customer_performer
        (message : Message) (c : Customer) (s : Collection) :
  truthy (customer_id c) = true ->
  conversationValid message c = true ->
  (forall r id t,
      In r s -> In (id, t) (targets c) ->
      sameMessageAndCoc (message_id message) id t r = true ->
      performer_type (performedBy r) = ACTIVITY_PERFORMER_TYPES.SYSTEM
      \/ performer_type (performedBy r) = ACTIVITY_PERFORMER_TYPES.USER) ->
  (forall r id t,
      matches (cocQuery (message_id message) id t) r = true <->
      sameMessageAndCoc (message_id message) id t r = true
      /\ performer_type (performedBy r) = ACTIVITY_PERFORMER_TYPES.CUSTOMER)
  /\ exists added new,
      outcome (createConversationMessageLog message (Some c) s) = Resolved (Some new)
      /\ final (createConversationMessageLog message (Some c) s) = s ++ added
      /\ In new added
      /\ performedBy new =
         {| performer_type := ACTIVITY_PERFORMER_TYPES.CUSTOMER;
            performer_id := None |}
      /\ coc new =
         {| coc_id := customer_id c; coc_type := COC_CONTENT_TYPES.CUSTOMER |}
      /\ (forall id t, In (id, t) (targets c) ->
            count_matching (cocQuery (message_id message) id t) added = 1).
Proof.
  intros T V H. split.
  { intros r id t. rewrite cocQuery_performer_key, andb_true_iff, performer_eqb_eq.
    reflexivity. }
  assert (N : forall id t, In (id, t) (targets c) ->
                has_matching (cocQuery (message_id message) id t) s = false).
  { intros id t Hin. apply other_performers_not_found.
    intros r Hr. apply H; assumption. }
  assert (Nc : has_matching (customerQuery message c) s = false).
  { apply N. unfold targets. apply in_or_app. right. left. reflexivity. }
  destruct (conversation_added message c s T V)
    as (added & v & O & E & C & Cc & _ & New).
  destruct (New Nc) as (s' & -> & Hin).
  exists added, (written (customerDoc message c) s').
  repeat split; auto.
  intros id t Hit. unfold targets in Hit.
  apply in_app_or in Hit as [Hit | [Hit | []]].
  - apply in_map_iff in Hit as (i & Hi & Hin').
    injection Hi as <- <-.
    fold (companyQuery message i). rewrite C.
    unfold companyQuery.
    rewrite (N (Some i) COC_CONTENT_TYPES.COMPANY).
    + rewrite (In_existsb_eqb i _ Hin'). reflexivity.
    + unfold targets. apply in_or_app. left.
      apply in_map_iff. exists i. split; auto.
  - injection Hit as <- <-.
    fold (customerQuery message c). rewrite Cc, Nc. reflexivity.
Qed.

(** C10: on valid input the call resolves with no record when the
    customer-level check, run on the collection the loop over the companies
    leaves, finds a record; the result is then neither the record found nor
    a company record inserted by the loop.  When the check finds nothing,
    the call resolves with the customer record it has just appended. *)
Theorem conversation_returns_new_customer_record_or_nothing
        (message : Message) (c : Customer) (s : Collection) :
  truthy (customer_id c) = true ->
  conversationValid message c = true ->
  exists companies,
    Forall (fun r => exists i s', r = written (companyDoc message i) s') companies
    /\ (forall existing,
          find (matches (customerQuery message c)) (s ++ companies) = Some existing ->
          outcome (createConversationMessageLog message (Some c) s) = Resolved None
          /\ final (createConversationMessageLog message (Some c) s) = s ++ companies)
    /\ (find (matches (customerQuery message c)) (s ++ companies) = None ->
        outcome (createConversationMessageLog message (Some c) s)
        = Resolved (Some (written (customerDoc message c) (s ++ companies)))
        /\ final (createConversationMessageLog message (Some c) s)
           = (s ++ companies) ++ [written (customerDoc message c) (s ++ companies)]).
Proof.
  intros T V.
  destruct (conversation_run message c s T V) as (added & j & F & _ & _ & E).
  exists added. split; [assumption|].
  assert (H : has_matching (customerQuery message c) (s ++ added)
              = has_matching (customerQuery message c) s).
  { rewrite has_matching_app, (has_customer_added message c added F).
    apply orb_false_r. }
  rewrite has_matching_find in H at 1.
  split.
  - intros existing Hf. rewrite Hf in H. rewrite E, <- H. split; reflexivity.
  - intros Hf. rewrite Hf in H. rewrite E, <- H. split; reflexivity.
Qed.

(** ** Companies listed more than once *)

(** Once the loop has gone through a company, that company has a record. *)
Lemma company_present_after_loop m before s i :
  forallb (fun i => validate (companyDoc m i)) before = true ->
  In i before ->
  outcome (for_of before (companyStep m) s) = Resolved tt
  /\ has_matching (companyQuery m i) (final (for_of before (companyStep m) s)) = true.
Proof.
  intros V Hin.
  destruct (for_of_companies m before s V) as (added & j & E & _ & C & _).
  rewrite E. cbn [outcome final]. split; [reflexivity|].
  rewrite has_matching_app.
  destruct (has_matching (companyQuery m i) s) eqn:H; [reflexivity|].
  rewrite (has_matching_count _ added), C, H, (In_existsb_eqb i _ Hin).
  reflexivity.
Qed.

(** C9: within one call on valid input, a company of [customer.companyIds]
    gets at most one inserted record however many times it is listed:
    exactly one when the collection had none for it, none otherwise.  The
    check of a later occurrence runs on the collection the earlier
    iterations have left, finds the record, and inserts nothing. *)
Theorem repeated_company_inserted_once
        (message : Message) (c : Customer) (s : Collection) (i : string) :
  truthy (customer_id c) = true ->
  conversationValid message c = true ->
  In i (company_ids c) ->
  (exists added,
      final (createConversationMessageLog message (Some c) s) = s ++ added
      /\ count_matching (companyQuery message i) added
         = (if has_matching (companyQuery message i) s then 0 else 1)
      /\ count_matching (companyQuery message i) added <= 1)
  /\ (forall before after,
         company_ids c = before ++ i :: after ->
         In i before ->
         companyStep message i (final (for_of before (companyStep message) s)) =
         {| outcome := Resolved tt;
            final := final (for_of before (companyStep message) s);
            journal := [call_findOne (companyQuery message i)] |}).
Proof.
  intros T V Hin. split.
  - destruct (conversation_added message c s T V) as (added & v & _ & E & C & _).
    exists added. split; [assumption|].
    rewrite C, (In_existsb_eqb i _ Hin), andb_true_r.
    destruct (has_matching (companyQuery message i) s); simpl; auto.
  - intros before after Hids Hb.
    apply companyStep_found.
    apply company_present_after_loop; [|assumption].
    unfold conversationValid in V. apply andb_true_iff in V as [V _].
    rewrite Hids, forallb_app in V. apply andb_true_iff in V as [V _].
    assumption.
Qed.

(** ** Two calls in sequence *)

(** C8: for a customer with [companyIds = [c1, c2]] on valid input and a
    collection with no matching record, the first call appends the record
    of [c1], then the record of [c2] (unless [c2] is [c1] again), then the
    record of the customer: three records at most, each performed by
    CUSTOMER with no performer id; the second call, run right after the
    first, only searches and appends nothing. *)
Theorem two_companies_then_nothing
        (message : Message) (c : Customer) (c1 c2 : string) (s : Collection) :
  companyIds c = Some [c1; c2] ->
  truthy (customer_id c) = true ->
  conversationValid message c = true ->
  has_matching (companyQuery message c1) s = false ->
  has_matching (companyQuery message c2) s = false ->
  has_matching (customerQuery message c) s = false ->
  let r1 := fst (twice (createConversationMessageLog message (Some c)) s) in
  let r2 := snd (twice (createConversationMessageLog message (Some c)) s) in
  let k1 := written (companyDoc message c1) s in
  let k2 := written (companyDoc message c2) (s ++ [k1]) in
  (if String.eqb c1 c2
   then final r1 = s ++ [k1; written (customerDoc message c) (s ++ [k1])]
   else final r1 = s ++ [k1; k2; written (customerDoc message c) (s ++ [k1; k2])])
  /\ length (final r1) <= length s + 3
  /\ length (inserts (journal r1)) = length (final r1) - length s
  /\ coc k1 = {| coc_id := Some c1; coc_type := COC_CONTENT_TYPES.COMPANY |}
  /\ coc k2 = {| coc_id := Some c2; coc_type := COC_CONTENT_TYPES.COMPANY |}
  /\ (forall t, coc (written (customerDoc message c) t)
                = {| coc_id := customer_id c; coc_type := COC_CONTENT_TYPES.CUSTOMER |})
  /\ (forall r, In r (skipn (length s) (final r1)) ->
                performedBy r = {| performer_type := ACTIVITY_PERFORMER_TYPES.CUSTOMER;
                                   performer_id := None |})
  /\ outcome r2 = Resolved None
  /\ final r2 = final r1
  /\ inserts (journal r2) = [].
Proof.
  intros Hids T V H1 H2 Hc r1 r2 k1 k2.
  assert (Ids : company_ids c = [c1; c2]) by (unfold company_ids; rewrite Hids; reflexivity).
  pose proof V as V'. unfold conversationValid in V'. rewrite Ids in V'.
  cbn [forallb] in V'. apply andb_true_iff in V' as [V12 Vc].
  apply andb_true_iff in V12 as [V1 V2]. apply andb_true_iff in V2 as [V2 _].
  assert (R1 : r1 =
    if String.eqb c1 c2
    then {| outcome := Resolved (Some (written (customerDoc message c) (s ++ [k1])));
            final := (s ++ [k1]) ++ [written (customerDoc message c) (s ++ [k1])];
            journal := [call_findOne (companyQuery message c1);
                        call_create (companyDoc message c1);
                        call_findOne (companyQuery message c2);
                        call_findOne (customerQuery message c);
                        call_create (customerDoc message c)] |}
    else {| outcome := Resolved (Some (written (customerDoc message c) (s ++ [k1; k2])));
            final := (s ++ [k1; k2]) ++ [written (customerDoc message c) (s ++ [k1; k2])];
            journal := [call_findOne (companyQuery message c1);
                        call_create (companyDoc message c1);
                        call_findOne (companyQuery message c2);
                        call_create (companyDoc message c2);
                        call_findOne (customerQuery message c);
                        call_create (customerDoc message c)] |}).
  { unfold r1, twice; cbn [fst].
    rewrite (conversation_unfold message c s T), Ids.
    assert (H2' : has_matching (companyQuery message c2) (s ++ [k1]) = String.eqb c1 c2).
    { rewrite has_matching_app, H2, has_matching_one. unfold k1.
      rewrite matches_company_written. reflexivity. }
    destruct (String.eqb c1 c2) eqn:E12.
    - assert (L : for_of [c1; c2] (companyStep message) s =
                  {| outcome := Resolved tt; final := s ++ [k1];
                     journal := [call_findOne (companyQuery message c1);
                                 call_create (companyDoc message c1);
                                 call_findOne (companyQuery message c2)] |}).
      { rewrite for_of_cons.
        rewrite (bind_resolved _ _ _ _ _ _ (companyStep_fresh message c1 s H1 V1)).
        fold k1. rewrite for_of_cons.
        rewrite (bind_resolved _ _ _ _ _ _ (companyStep_found message c2 _ H2')).
        reflexivity. }
      rewrite (bind_resolved _ _ _ _ _ _ L).
      assert (Hc' : has_matching (customerQuery message c) (s ++ [k1]) = false).
      { rewrite has_matching_app, Hc, has_matching_one. unfold k1.
        apply matches_customer_written_company. }
      rewrite (customer_pair_fresh message c _ Hc' Vc). reflexivity.
    - assert (L : for_of [c1; c2] (companyStep message) s =
                  {| outcome := Resolved tt; final := s ++ [k1; k2];
                     journal := [call_findOne (companyQuery message c1);
                                 call_create (companyDoc message c1);
                                 call_findOne (companyQuery message c2);
                                 call_create (companyDoc message c2)] |}).
      { rewrite for_of_cons.
        rewrite (bind_resolved _ _ _ _ _ _ (companyStep_fresh message c1 s H1 V1)).
        fold k1. rewrite for_of_cons.
        rewrite (bind_resolved _ _ _ _ _ _ (companyStep_fresh message c2 _ H2' V2)).
        fold k2. cbn [for_of resolve outcome final journal app].
        rewrite <- app_assoc. reflexivity. }
      rewrite (bind_resolved _ _ _ _ _ _ L).
      assert (Hc' : has_matching (customerQuery message c) (s ++ [k1; k2]) = false).
      { change [k1; k2] with ([k1] ++ [k2]).
        rewrite !has_matching_app, Hc, !has_matching_one. unfold k1, k2.
        rewrite !matches_customer_written_company. reflexivity. }
      rewrite (customer_pair_fresh message c _ Hc' Vc). reflexivity. }
  assert (R2 : r2 = {| outcome := Resolved None; final := final r1;
                       journal := map (fun i => call_findOne (companyQuery message i))
                                      (company_ids c)
                                  ++ [call_findOne (customerQuery message c)] |}).
  { apply conversation_second_call; assumption. }
  rewrite R2; cbn [outcome final journal].
  rewrite inserts_app, inserts_findOnes.
  rewrite R1. destruct (String.eqb c1 c2); cbn [outcome final journal];
    rewrite <- !app_assoc; cbn [app];
    (repeat split; try reflexivity;
     [ rewrite length_app; simpl; lia
     | rewrite length_app; simpl; lia
     | intros r; rewrite skipn_app, skipn_all, Nat.sub_diag; cbn [skipn app];
       intros Hr; repeat destruct Hr as [<- | Hr]; try reflexivity; destruct Hr ]).
Qed.

(** C1, amended: for every message, every customer with a non-empty
    identifier whose documents the store accepts, and every collection,
    two calls in sequence with the same arguments both resolve; the second
    one only searches, inserts nothing and leaves the collection as the
    first one left it.  Every coc target then has at least one matching
    record, and exactly one whenever the collection held at most one for
    it at the start: the calls add one record for a target that had none,
    and nothing for a target that had some. *)
Theorem conversation_twice_inserts_once
        (message : Message) (c : Customer) (s : Collection) :
  truthy (customer_id c) = true ->
  conversationValid message c = true ->
  let r1 := fst (twice (createConversationMessageLog message (Some c)) s) in
  let r2 := snd (twice (createConversationMessageLog message (Some c)) s) in
  (exists v, outcome r1 = Resolved v)
  /\ outcome r2 = Resolved None
  /\ final r2 = final r1
  /\ inserts (journal r2) = []
  /\ length (final r1) = length s + length (inserts (journal r1))
  /\ (forall id t,
        In (id, t) (targets c) ->
        count_matching (cocQuery (message_id message) id t) (final r2)
        = Nat.max 1 (count_matching (cocQuery (message_id message) id t) s)).
Proof.
  intros T V r1 r2.
  assert (R2 : r2 = {| outcome := Resolved None; final := final r1;
                       journal := map (fun i => call_findOne (companyQuery message i))
                                      (company_ids c)
                                  ++ [call_findOne (customerQuery message c)] |}).
  { apply conversation_second_call; assumption. }
  rewrite R2; cbn [outcome final journal].
  unfold r1, twice; cbn [fst].
  destruct (conversation_added message c s T V)
    as (added & v & O & E & C & Cc & L & _).
  rewrite O, E, L. repeat split.
  - exists v. reflexivity.
  - rewrite inserts_app, inserts_findOnes. reflexivity.
  - apply length_app.
  - intros id t Hit. unfold targets in Hit.
    rewrite count_matching_app.
    apply in_app_or in Hit as [Hit | [Hit | []]].
    + apply in_map_iff in Hit as (i & Hi & Hin).
      injection Hi as <- <-. fold (companyQuery message i).
      rewrite C, (In_existsb_eqb i _ Hin), andb_true_r.
      rewrite <- (count_grows _ (has_matching (companyQuery message i) s)
                              (has_matching_count _ s)).
      destruct (has_matching (companyQuery message i) s); reflexivity.
    + injection Hit as <- <-. fold (customerQuery message c).
      rewrite Cc. apply count_grows, has_matching_count.
Qed.

(** ** Segment logs *)

Lemma segment_found g c s found :
  find (matches (segmentQuery g (related_id c))) s = Some found ->
  createSegmentLog g (Some c) s =
  {| outcome := Resolved found; final := s;
     journal := [call_findOne (segmentQuery g (related_id c))] |}.
Proof.
  intros H. unfold createSegmentLog, findOne, bind; cbn [outcome final journal].
  rewrite H. reflexivity.
Qed.

Lemma segment_fresh g c s :
  find (matches (segmentQuery g (related_id c))) s = None ->
  validate (docOf (segmentDoc g (related_id c))) = true ->
  createSegmentLog g (Some c) s =
  {| outcome := Resolved (written (docOf (segmentDoc g (related_id c))) s);
     final := s ++ [written (docOf (segmentDoc g (related_id c))) s];
     journal := [call_findOne (segmentQuery g (related_id c));
                 call_create (docOf (segmentDoc g (related_id c)))] |}.
Proof.
  intros H V. unfold createSegmentLog, findOne, bind; cbn [outcome final journal].
  rewrite H. rewrite (createDoc_accepted _ s V). reflexivity.
Qed.

(** C2, amended: for every segment and every customer or company that is
    not absent, [createSegmentLog] first searches for a record with
    [activity.type = SEGMENT], [activity.action = CREATE],
    [activity.id = segment._id], [coc.type = segment.contentType] and
    [coc.id = customer._id].  If there is one, the call resolves with it,
    inserts nothing and raises nothing.  Otherwise, when the store accepts
    the document, it appends one record with
    [activity.content = segment.name] and [performedBy = {type: SYSTEM}]
    and resolves with it.  Two calls in sequence with the same arguments
    resolve with the same record and insert at most once in total: once
    when no matching record existed before the first call, never when one
    did. *)
Theorem segment_logged_at_most_once (segment : Segment) (c : Related) (s : Collection) :
  let q := segmentQuery segment (related_id c) in
  let d := docOf (segmentDoc segment (related_id c)) in
  let r1 := fst (twice (createSegmentLog segment (Some c)) s) in
  let r2 := snd (twice (createSegmentLog segment (Some c)) s) in
  (forall r,
      matches q r = true <->
      activity_type (activity r) = ACTIVITY_TYPES.SEGMENT /\
      activity_action (activity r) = ACTIVITY_ACTIONS.CREATE /\
      activity_id (activity r) = segment_id segment /\
      coc_type (coc r) = segment_contentType segment /\
      coc_id (coc r) = related_id c)
  /\ (forall found,
      find (matches q) s = Some found ->
      r1 = {| outcome := Resolved found; final := s; journal := [call_findOne q] |}
      /\ r2 = r1
      /\ inserts (journal r1 ++ journal r2) = [])
  /\ (validate d = true ->
      find (matches q) s = None ->
      r1 = {| outcome := Resolved (written d s); final := s ++ [written d s];
              journal := [call_findOne q; call_create d] |}
      /\ activity (written d s) =
         {| activity_type := ACTIVITY_TYPES.SEGMENT;
            activity_action := ACTIVITY_ACTIONS.CREATE;
            activity_content := segment_name segment;
            activity_id := segment_id segment |}
      /\ performedBy (written d s) =
         {| performer_type := ACTIVITY_PERFORMER_TYPES.SYSTEM; performer_id := None |}
      /\ coc (written d s) =
         {| coc_id := related_id c; coc_type := segment_contentType segment |}
      /\ r2 = {| outcome := Resolved (written d s); final := s ++ [written d s];
                 journal := [call_findOne q] |}
      /\ inserts (journal r1 ++ journal r2) = [call_create d])
  /\ (validate d = true ->
      (exists r, outcome r1 = Resolved r /\ outcome r2 = Resolved r)
      /\ final r2 = final r1
      /\ inserts (journal r2) = []
      /\ length (inserts (journal r1 ++ journal r2))
         = (if has_matching q s then 0 else 1)).
Proof.
  intros q d r1 r2.
  assert (Found : forall found,
             find (matches q) s = Some found ->
             r1 = {| outcome := Resolved found; final := s; journal := [call_findOne q] |}
             /\ r2 = r1
             /\ inserts (journal r1 ++ journal r2) = []).
  { intros found H.
    assert (R1 : r1 = {| outcome := Resolved found; final := s;
                         journal := [call_findOne q] |})
      by (apply segment_found; assumption).
    assert (R2 : r2 = r1).
    { change r2 with (createSegmentLog segment (Some c) (final r1)).
      rewrite R1. cbn [final]. apply segment_found; assumption. }
    repeat split; auto. rewrite R2, R1. reflexivity. }
  assert (Fresh : validate d = true ->
             find (matches q) s = None ->
             r1 = {| outcome := Resolved (written d s); final := s ++ [written d s];
                     journal := [call_findOne q; call_create d] |}
             /\ r2 = {| outcome := Resolved (written d s); final := s ++ [written d s];
                        journal := [call_findOne q] |}).
  { intros V H.
    assert (R1 : r1 = {| outcome := Resolved (written d s); final := s ++ [written d s];
                         journal := [call_findOne q; call_create d] |})
      by (apply segment_fresh; assumption).
    split; [assumption|].
    change r2 with (createSegmentLog segment (Some c) (final r1)).
    rewrite R1. cbn [final].
    apply segment_found. unfold q in H. rewrite (find_app_fresh _ _ _ H).
    cbn [find]. unfold d. rewrite matches_segmentQuery_written. reflexivity. }
  split; [intros r; apply matches_segmentQuery|].
  split; [exact Found|]. split.
  - intros V H. destruct (Fresh V H) as [R1 R2].
    rewrite R1, R2. repeat split.
  - intros V. rewrite has_matching_find.
    destruct (find (matches q) s) as [found|] eqn:H.
    + destruct (Found found eq_refl) as (R1 & R2 & I).
      rewrite I, R2, R1. cbn [outcome final journal]. repeat split.
      exists found. split; reflexivity.
    + destruct (Fresh V eq_refl) as [R1 R2].
      rewrite R1, R2. cbn [outcome final journal]. repeat split.
      exists (written d s). split; reflexivity.
Qed.

(** ** Calls the store may refuse *)

Lemma companyStep_rejected m i s :
  has_matching (companyQuery m i) s = false ->
  validate (companyDoc m i) = false ->
  companyStep m i s =
  {| outcome := Rejected (ValidationError (companyDoc m i)); final := s;
     journal := [call_findOne (companyQuery m i); call_create (companyDoc m i)] |}.
Proof.
  rewrite has_matching_find. intros H V.
  unfold companyStep, cocFindOne, findOne, bind, companyQuery in *; simpl.
  destruct (find _ s); [discriminate|].
  unfold cocCreate, createDoc, create, companyDoc in *; simpl.
  rewrite V. reflexivity.
Qed.

Lemma bind_rejected {A B} (p : Promise A) (k : A -> Promise B) s e s' j :
  p s = {| outcome := Rejected e; final := s'; journal := j |} ->
  bind p k s = {| outcome := Rejected e; final := s'; journal := j |}.
Proof. intros H. unfold bind. rewrite H. reflexivity. Qed.

Lemma customer_pair_rejected m c s :
  has_matching (customerQuery m c) s = false ->
  validate (customerDoc m c) = false ->
  bind (cocFindOne (message_id m) (customer_id c) COC_CONTENT_TYPES.CUSTOMER)
       (fun foundLog =>
          match foundLog with
          | None =>
              bind (cocCreate (message_id m) (message_content m)
                              (customer_id c) COC_CONTENT_TYPES.CUSTOMER)
                   (fun log => resolve (Some log))
          | Some _ => resolve None
          end) s =
  {| outcome := Rejected (ValidationError (customerDoc m c));
     final := s;
     journal := [call_findOne (customerQuery m c); call_create (customerDoc m c)] |}.
Proof.
  rewrite has_matching_find. intros H V.
  unfold cocFindOne, findOne, bind, customerQuery in *; simpl.
  destruct (find _ s); [discriminate|].
  unfold cocCreate, createDoc, create, customerDoc in *; simpl.
  rewrite V. reflexivity.
Qed.

(** The loop stops at the first company that has no record and whose
    document the store refuses. *)
Lemma for_of_companies_stuck m before i0 after : forall s,
  forallb (fun i => has_matching (companyQuery m i) s) before = true ->
  has_matching (companyQuery m i0) s = false ->
  validate (companyDoc m i0) = false ->
  for_of (before ++ i0 :: after) (companyStep m) s =
  {| outcome := Rejected (ValidationError (companyDoc m i0)); final := s;
     journal := map (fun i => call_findOne (companyQuery m i)) before
                ++ [call_findOne (companyQuery m i0); call_create (companyDoc m i0)] |}.
Proof.
  induction before as [|i rest IH]; intros s Hb H0 V0.
  - cbn [app map]. rewrite for_of_cons.
    apply bind_rejected, companyStep_rejected; assumption.
  - cbn [forallb] in Hb. apply andb_true_iff in Hb as [Hi Hrest].
    cbn [app map]. rewrite for_of_cons.
    rewrite (bind_resolved _ _ _ _ _ _ (companyStep_found m i s Hi)).
    rewrite (IH s Hrest H0 V0). reflexivity.
Qed.

Lemma forallb_has_app m ids s s' :
  forallb (fun i => has_matching (companyQuery m i) s) ids = true ->
  forallb (fun i => has_matching (companyQuery m i) (s ++ s')) ids = true.
Proof.
  rewrite !forallb_forall. intros H i Hin.
  rewrite has_matching_app, (H i Hin). reflexivity.
Qed.

(** The loop on any input: it appends company records of the message, at
    most one for a company and none for a company that had one, and either
    ends with every company recorded or stops at a refused document. *)
Lemma for_of_companies_any m ids : forall s,
  exists added j,
    final (for_of ids (companyStep m) s) = s ++ added
    /\ journal (for_of ids (companyStep m) s) = j
    /\ Forall (fun r => exists i s', r = written (companyDoc m i) s') added
    /\ length added <= length ids
    /\ (forall i, count_matching (companyQuery m i) added
                  <= if has_matching (companyQuery m i) s then 0 else 1)
    /\ ((outcome (for_of ids (companyStep m) s) = Resolved tt
         /\ forallb (fun i => has_matching (companyQuery m i) (s ++ added)) ids = true)
        \/ (exists before i0 after,
               ids = before ++ i0 :: after
               /\ outcome (for_of ids (companyStep m) s)
                  = Rejected (ValidationError (companyDoc m i0))
               /\ forallb (fun i => has_matching (companyQuery m i) (s ++ added))
                          before = true
               /\ has_matching (companyQuery m i0) (s ++ added) = false
               /\ validate (companyDoc m i0) = false)).
Proof.
  induction ids as [|i0 rest IH]; intros s.
  - exists [], []. rewrite app_nil_r. cbn [for_of resolve final journal outcome].
    repeat split; auto.
    intros i. unfold count_matching; simpl. destruct (has_matching _ s); lia.
  - rewrite for_of_cons.
    destruct (has_matching (companyQuery m i0) s) eqn:H0.
    + rewrite (bind_resolved _ _ _ _ _ _ (companyStep_found m i0 s H0)).
      cbn [outcome final journal].
      destruct (IH s) as (added & j & E & J & F & L & C & D).
      exists added, (call_findOne (companyQuery m i0) :: j).
      rewrite E, J. repeat split; auto.
      * simpl. lia.
      * destruct D as [[O Hall] | (before & i1 & after & -> & O & Hb & H1 & V1)].
        -- left. split; [assumption|]. cbn [forallb].
           rewrite has_matching_app, H0, Hall. reflexivity.
        -- right. exists (i0 :: before), i1, after. repeat split; auto.
           cbn [forallb]. rewrite has_matching_app, H0, Hb. reflexivity.
    + destruct (validate (companyDoc m i0)) eqn:V0.
      * rewrite (bind_resolved _ _ _ _ _ _ (companyStep_fresh m i0 s H0 V0)).
        cbn [outcome final journal].
        destruct (IH (s ++ [written (companyDoc m i0) s]))
          as (added & j & E & J & F & L & C & D).
        exists (written (companyDoc m i0) s :: added),
          (call_findOne (companyQuery m i0) :: call_create (companyDoc m i0) :: j).
        rewrite E, J.
        assert (A : (s ++ [written (companyDoc m i0) s]) ++ added
                    = s ++ written (companyDoc m i0) s :: added)
          by (rewrite <- app_assoc; reflexivity).
        rewrite A in *. repeat split; auto.
        -- constructor; [eauto | assumption].
        -- simpl. lia.
        -- intros i.
           change (written (companyDoc m i0) s :: added)
             with ([written (companyDoc m i0) s] ++ added).
           rewrite count_matching_app, count_matching_one, matches_company_written.
           specialize (C i). rewrite has_matching_app, has_matching_one,
             matches_company_written in C.
           destruct (String.eqb_spec i0 i) as [->|].
           ++ rewrite H0. rewrite orb_true_r in C. lia.
           ++ rewrite orb_false_r in C. lia.
        -- destruct D as [[O Hall] | (before & i1 & after & -> & O & Hb & H1 & V1)].
           ++ left. split; [assumption|]. cbn [forallb]. rewrite Hall, andb_true_r.
              change (written (companyDoc m i0) s :: added)
                with ([written (companyDoc m i0) s] ++ added).
              rewrite !has_matching_app, has_matching_one, matches_company_written,
                String.eqb_refl, orb_true_r. reflexivity.
           ++ right. exists (i0 :: before), i1, after. repeat split; auto.
              cbn [forallb]. rewrite Hb, andb_true_r.
              change (written (companyDoc m i0) s :: added)
                with ([written (companyDoc m i0) s] ++ added).
              rewrite !has_matching_app, has_matching_one, matches_company_written,
                String.eqb_refl, orb_true_r. reflexivity.
      * rewrite (bind_rejected _ _ _ _ _ _ (companyStep_rejected m i0 s H0 V0)).
        cbn [outcome final journal].
        exists [], [call_findOne (companyQuery m i0); call_create (companyDoc m i0)].
        rewrite app_nil_r. repeat split; auto.
        -- simpl. lia.
        -- intros i. unfold count_matching; simpl. destruct (has_matching _ s); lia.
        -- right. exists [], i0, rest. repeat split; auto.
Qed.

Lemma matches_cocQuery_written_any (m m' : Id) (content : Mixed) (c c' : Id)
      (t t' : COC_CONTENT_TYPES.t) (s : Collection) :
  matches (cocQuery m c t) (written (docOf (cocDoc m' content c' t')) s)
  = Id_eqb m' m && (COC_CONTENT_TYPES.eqb t' t && Id_eqb c' c).
Proof.
  unfold matches, cocQuery, written; simpl.
  rewrite !andb_true_r. reflexivity.
Qed.

Lemma count_matching_none q added :
  Forall (fun r => matches q r = false) added -> count_matching q added = 0.
Proof.
  unfold count_matching. induction 1 as [|r added H _ IH]; [reflexivity|].
  cbn [filter]. rewrite H. exact IH.
Qed.

(** The call on any customer that passes the guard. *)
Lemma conversation_any m c s :
  truthy (customer_id c) = true ->
  exists added,
    final (createConversationMessageLog m (Some c) s) = s ++ added
    /\ Forall (conversation_written m c) added
    /\ length added <= length (company_ids c) + 1
    /\ (forall i, count_matching (companyQuery m i) added
                  <= if has_matching (companyQuery m i) s then 0 else 1)
    /\ count_matching (customerQuery m c) added
       <= (if has_matching (customerQuery m c) s then 0 else 1)
    /\ (((exists v, outcome (createConversationMessageLog m (Some c) s) = Resolved v)
         /\ forallb (fun i => has_matching (companyQuery m i) (s ++ added))
                    (company_ids c) = true
         /\ has_matching (customerQuery m c) (s ++ added) = true)
        \/ (exists before i0 after,
               company_ids c = before ++ i0 :: after
               /\ outcome (createConversationMessageLog m (Some c) s)
                  = Rejected (ValidationError (companyDoc m i0))
               /\ forallb (fun i => has_matching (companyQuery m i) (s ++ added))
                          before = true
               /\ has_matching (companyQuery m i0) (s ++ added) = false
               /\ validate (companyDoc m i0) = false)
        \/ (outcome (createConversationMessageLog m (Some c) s)
            = Rejected (ValidationError (customerDoc m c))
            /\ forallb (fun i => has_matching (companyQuery m i) (s ++ added))
                       (company_ids c) = true
            /\ has_matching (customerQuery m c) (s ++ added) = false
            /\ validate (customerDoc m c) = false)).
Proof.
  intros T. rewrite (conversation_unfold m c s T).
  destruct (for_of_companies_any m (company_ids c) s)
    as (added & j & E & J & F & L & C & D).
  assert (F' : Forall (conversation_written m c) added).
  { eapply Forall_impl; [|exact F]. intros r (i & s' & ->).
    exists s'. left. exists i. reflexivity. }
  assert (Hc : has_matching (customerQuery m c) (s ++ added)
               = has_matching (customerQuery m c) s).
  { rewrite has_matching_app, (has_customer_added m c added F). apply orb_false_r. }
  assert (Cc : count_matching (customerQuery m c) added = 0)
    by (apply count_customer_added; assumption).
  destruct D as [[O Hall] | (before & i0 & after & Hids & O & Hb & H0 & V0)].
  - assert (Eq : for_of (company_ids c) (companyStep m) s
                 = {| outcome := Resolved tt; final := s ++ added; journal := j |}).
    { destruct (for_of (company_ids c) (companyStep m) s); simpl in *; subst; reflexivity. }
    rewrite (bind_resolved _ _ _ _ _ _ Eq).
    destruct (has_matching (customerQuery m c) s) eqn:Hs.
    + rewrite (customer_pair_found m c _ Hc). cbn [outcome final journal].
      exists added. repeat split; auto; try lia.
      left. repeat split; auto. exists None. reflexivity.
    + destruct (validate (customerDoc m c)) eqn:Vc.
      * rewrite (customer_pair_fresh m c _ Hc Vc). cbn [outcome final journal].
        exists (added ++ [written (customerDoc m c) (s ++ added)]).
        repeat split.
        -- rewrite app_assoc. reflexivity.
        -- apply Forall_app. split; [assumption|].
           constructor; [|constructor]. exists (s ++ added). right. reflexivity.
        -- rewrite length_app. simpl. lia.
        -- intros i. rewrite count_matching_app, count_matching_one,
             matches_company_written_customer. specialize (C i). lia.
        -- rewrite count_matching_app, count_matching_one, Cc,
             matches_customer_written. simpl. lia.
        -- left. repeat split.
           ++ eexists. reflexivity.
           ++ rewrite app_assoc. apply forallb_has_app. assumption.
           ++ rewrite !has_matching_app, has_matching_one, matches_customer_written.
              rewrite !orb_true_r. reflexivity.
      * rewrite (customer_pair_rejected m c _ Hc Vc). cbn [outcome final journal].
        exists added. repeat split; auto; try lia.
        right. right. repeat split; auto.
  - assert (Eq : for_of (company_ids c) (companyStep m) s
                 = {| outcome := Rejected (ValidationError (companyDoc m i0));
                      final := s ++ added; journal := j |}).
    { destruct (for_of (company_ids c) (companyStep m) s); simpl in *; subst; reflexivity. }
    rewrite (bind_rejected _ _ _ _ _ _ Eq). cbn [outcome final journal].
    exists added.
    split; [reflexivity|]. split; [assumption|]. split; [lia|].
    split; [assumption|]. split; [rewrite Cc; lia|].
    right. left. exists before, i0, after. repeat split; auto.
Qed.

(** The second call when the first stopped at a refused company document. *)
Lemma conversation_stuck_company m c t before i0 after :
  truthy (customer_id c) = true ->
  company_ids c = before ++ i0 :: after ->
  forallb (fun i => has_matching (companyQuery m i) t) before = true ->
  has_matching (companyQuery m i0) t = false ->
  validate (companyDoc m i0) = false ->
  createConversationMessageLog m (Some c) t =
  {| outcome := Rejected (ValidationError (companyDoc m i0)); final := t;
     journal := map (fun i => call_findOne (companyQuery m i)) before
                ++ [call_findOne (companyQuery m i0); call_create (companyDoc m i0)] |}.
Proof.
  intros T Hids Hb H0 V0.
  rewrite (conversation_unfold m c t T), Hids.
  apply bind_rejected, for_of_companies_stuck; assumption.
Qed.

(** The second call when the first stopped at the refused customer document. *)
Lemma conversation_stuck_customer m c t :
  truthy (customer_id c) = true ->
  forallb (fun i => has_matching (companyQuery m i) t) (company_ids c) = true ->
  has_matching (customerQuery m c) t = false ->
  validate (customerDoc m c) = false ->
  createConversationMessageLog m (Some c) t =
  {| outcome := Rejected (ValidationError (customerDoc m c)); final := t;
     journal := map (fun i => call_findOne (companyQuery m i)) (company_ids c)
                ++ [call_findOne (customerQuery m c); call_create (customerDoc m c)] |}.
Proof.
  intros T Hs Hc Vc.
  rewrite (conversation_unfold m c t T).
  rewrite (bind_resolved _ _ _ _ _ _ (for_of_companies_found m _ t Hs)).
  rewrite (customer_pair_rejected m c t Hc Vc). reflexivity.
Qed.

Lemma conversation_guard m customer s :
  (customer = None \/ exists c, customer = Some c /\ truthy (customer_id c) = false) ->
  createConversationMessageLog m customer s =
  {| outcome := Rejected (Error customer_must_be_supplied_for_conversations);
     final := s; journal := [] |}.
Proof.
  intros [-> | (c & -> & T)]; [reflexivity|].
  unfold createConversationMessageLog. rewrite T. reflexivity.
Qed.

Lemma customer_cases (customer : option Customer) :
  (customer = None \/ exists c, customer = Some c /\ truthy (customer_id c) = false)
  \/ exists c, customer = Some c /\ truthy (customer_id c) = true.
Proof.
  destruct customer as [c|]; [|left; left; reflexivity].
  destruct (truthy (customer_id c)) eqn:T.
  - right. exists c. split; auto.
  - left. right. exists c. split; auto.
Qed.

Lemma run_eta {A} (r : Run A) :
  r = {| outcome := outcome r; final := final r; journal := journal r |}.
Proof. destruct r; reflexivity. Qed.

Lemma for_of_app_run {A} (xs ys : list A) body : forall s s1 j1,
  for_of xs body s = {| outcome := Resolved tt; final := s1; journal := j1 |} ->
  for_of (xs ++ ys) body s =
  {| outcome := outcome (for_of ys body s1);
     final := final (for_of ys body s1);
     journal := j1 ++ journal (for_of ys body s1) |}.
Proof.
  induction xs as [|x xs IH]; intros s s1 j1 H.
  - cbn in H. injection H as <- <-. cbn [app]. apply run_eta.
  - cbn [app]. rewrite for_of_cons in *. unfold bind in *.
    destruct (body x s) as [o f j0]; cbn [outcome final journal] in *.
    destruct o as [u|e]; [|discriminate].
    injection H as O F J.
    assert (E : for_of xs body f
                = {| outcome := Resolved tt; final := s1;
                     journal := journal (for_of xs body f) |}).
    { rewrite (run_eta (for_of xs body f)) at 1. rewrite O, F. reflexivity. }
    rewrite (IH f s1 _ E). cbn [outcome final journal].
    rewrite <- J, app_assoc. reflexivity.
Qed.

Lemma searches_app j j' : searches (j ++ j') = searches j ++ searches j'.
Proof. apply filter_app. Qed.

(** On documents the store accepts, the loop looks every listed company up,
    once per occurrence and in the order of the list. *)
Lemma for_of_companies_searches m ids : forall s,
  forallb (fun i => validate (companyDoc m i)) ids = true ->
  searches (journal (for_of ids (companyStep m) s))
  = map (fun i => call_findOne (companyQuery m i)) ids.
Proof.
  induction ids as [|i0 rest IH]; intros s V; [reflexivity|].
  cbn [forallb] in V. apply andb_true_iff in V as [V0 Vrest].
  rewrite for_of_cons. cbn [map].
  destruct (has_matching (companyQuery m i0) s) eqn:H0.
  - rewrite (bind_resolved _ _ _ _ _ _ (companyStep_found m i0 s H0)).
    cbn [journal]. rewrite searches_app, (IH s Vrest). reflexivity.
  - rewrite (bind_resolved _ _ _ _ _ _ (companyStep_fresh m i0 s H0 V0)).
    cbn [journal]. rewrite searches_app, (IH _ Vrest). reflexivity.
Qed.

Lemma searches_findOnes {A} (f : A -> Query) xs :
  searches (map (fun x => call_findOne (f x)) xs) = map (fun x => call_findOne (f x)) xs.
Proof. induction xs as [|x xs IH]; [reflexivity|]. cbn. unfold searches in IH. rewrite IH. reflexivity. Qed.

(** ** What a conversation call never does *)


(** X2: for every key of the duplicate check (message, coc identifier,
    coc type), [createConversationMessageLog] leaves at most one matching
    record where there was at most one, whatever its arguments and whether
    the store accepts its documents or not: the number of matching records
    after the call is at most [max 1] of the number before. *)
Theorem conversation_keeps_keys_unique
        (message : Message) (customer : option Customer) (s : Collection)
        (messageId cocId : Id) (cocType : COC_CONTENT_TYPES.t) :
  count_matching (cocQuery messageId cocId cocType)
                 (final (createConversationMessageLog message customer s))
  <= Nat.max 1 (count_matching (cocQuery messageId cocId cocType) s).
Proof.
  destruct (customer_cases customer) as [G | (c & -> & T)].
  - rewrite (conversation_guard message customer s G). cbn [final]. lia.
  - destruct (conversation_any message c s T) as (added & E & F & _ & C & Cc & _).
    rewrite E, count_matching_app.
    assert (K : count_matching (cocQuery messageId cocId cocType) added
                <= if has_matching (cocQuery messageId cocId cocType) s then 0 else 1).
    { destruct (Id_eqb (message_id message) messageId) eqn:Em.
      - apply Id_eqb_eq in Em. subst messageId.
        destruct cocType.
        + destruct (Id_eqb (customer_id c) cocId) eqn:Ec.
          * apply Id_eqb_eq in Ec. subst cocId. exact Cc.
          * rewrite count_matching_none; [lia|].
            eapply Forall_impl; [|exact F].
            intros r (s' & [(i & ->) | ->]); unfold companyDoc, customerDoc;
              rewrite matches_cocQuery_written_any;
              cbn [COC_CONTENT_TYPES.eqb Id_eqb andb];
              rewrite ?Ec, ?Em, ?andb_false_r; reflexivity.
        + destruct cocId as [i|].
          * exact (C i).
          * rewrite count_matching_none; [lia|].
            eapply Forall_impl; [|exact F].
            intros r (s' & [(i & ->) | ->]); unfold companyDoc, customerDoc;
              rewrite matches_cocQuery_written_any;
              cbn [COC_CONTENT_TYPES.eqb Id_eqb andb];
              rewrite ?Ec, ?Em, ?andb_false_r; reflexivity.
      - rewrite count_matching_none; [lia|].
        eapply Forall_impl; [|exact F].
        intros r (s' & [(i & ->) | ->]); unfold companyDoc, customerDoc;
          rewrite matches_cocQuery_written_any;
              cbn [COC_CONTENT_TYPES.eqb Id_eqb andb];
              rewrite ?Ec, ?Em, ?andb_false_r; reflexivity. }
    rewrite has_matching_count in K.
    destruct (Nat.eqb_spec (count_matching (cocQuery messageId cocId cocType) s) 0);
      cbn [negb] in K; lia.
Qed.

(** X3: a second call of [createConversationMessageLog] with the same
    arguments, run right after the first, never changes the collection,
    whatever the arguments and whether the first call resolved or was
    rejected: after a rejection the retry is rejected with the same error,
    and after a resolved call it resolves with no record and makes no
    insert. *)
Theorem conversation_retry_writes_nothing
        (message : Message) (customer : option Customer) (s : Collection) :
  let r1 := fst (twice (createConversationMessageLog message customer) s) in
  let r2 := snd (twice (createConversationMessageLog message customer) s) in
  final r2 = final r1
  /\ (forall e, outcome r1 = Rejected e -> outcome r2 = Rejected e)
  /\ (forall v, outcome r1 = Resolved v ->
                outcome r2 = Resolved None /\ inserts (journal r2) = []).
Proof.
  intros r1 r2.
  change r2 with (createConversationMessageLog message customer (final r1)).
  change r1 with (createConversationMessageLog message customer s).
  destruct (customer_cases customer) as [G | (c & -> & T)].
  - rewrite !(conversation_guard message customer _ G). cbn [outcome final journal].
    repeat split; auto; discriminate.
  - destruct (conversation_any message c s T) as (added & E & _ & _ & _ & _ & D).
    rewrite E.
    destruct D as [((v0 & O) & Hs & Hc)
                  | [(before & i0 & after & Hids & O & Hb & H0 & V0)
                    | (O & Hs & Hc & Vc)]]; rewrite O.
    + rewrite (conversation_found message c _ T Hs Hc). cbn [outcome final journal].
      repeat split; try discriminate.
      rewrite inserts_app, inserts_findOnes. reflexivity.
    + rewrite (conversation_stuck_company message c _ before i0 after T Hids Hb H0 V0).
      cbn [outcome final journal]. repeat split; try discriminate.
      intros e He. exact He.
    + rewrite (conversation_stuck_customer message c _ T Hs Hc Vc).
      cbn [outcome final journal]. repeat split; try discriminate.
      intros e He. exact He.
Qed.

Lemma refused_not_among_accepted m before i0 :
  forallb (fun i => validate (companyDoc m i)) before = true ->
  validate (companyDoc m i0) = false ->
  existsb (String.eqb i0) before = false.
Proof.
  intros V V0. destruct (existsb (String.eqb i0) before) eqn:E; [|reflexivity].
  apply existsb_exists in E as (i & Hin & Hi). apply String.eqb_eq in Hi. subst i.
  rewrite forallb_forall in V. rewrite (V i0 Hin) in V0. discriminate.
Qed.

(** X4: when the store refuses the document of a listed company that has no
    record yet, while it accepts those of the companies listed before it, the
    call is rejected with the validation error of that document and nothing
    is rolled back: the records written for the earlier companies stay, the
    companies listed after it and the customer are not even looked up, and
    the customer gets no record. *)
Theorem conversation_stops_at_refused_company
        (message : Message) (c : Customer) (s : Collection)
        (before : list string) (i0 : string) (after : list string) :
  truthy (customer_id c) = true ->
  company_ids c = before ++ i0 :: after ->
  forallb (fun i => validate (companyDoc message i)) before = true ->
  validate (companyDoc message i0) = false ->
  has_matching (companyQuery message i0) s = false ->
  outcome (createConversationMessageLog message (Some c) s)
  = Rejected (ValidationError (companyDoc message i0))
  /\ final (createConversationMessageLog message (Some c) s)
     = final (for_of before (companyStep message) s)
  /\ (forall i, In i before ->
        has_matching (companyQuery message i)
                     (final (createConversationMessageLog message (Some c) s)) = true)
  /\ searches (journal (createConversationMessageLog message (Some c) s))
     = map (fun i => call_findOne (companyQuery message i)) (before ++ [i0])
  /\ count_matching (customerQuery message c)
                    (final (createConversationMessageLog message (Some c) s))
     = count_matching (customerQuery message c) s.
Proof.
  intros T Hids V V0 H0.
  destruct (for_of_companies message before s V) as (added & j & E & F & C & L).
  assert (H0' : has_matching (companyQuery message i0) (s ++ added) = false).
  { rewrite has_matching_app, H0, (has_matching_count _ added), C, H0,
      (refused_not_among_accepted message before i0 V V0). reflexivity. }
  assert (R : createConversationMessageLog message (Some c) s =
              {| outcome := Rejected (ValidationError (companyDoc message i0));
                 final := s ++ added;
                 journal := j ++ [call_findOne (companyQuery message i0);
                                  call_create (companyDoc message i0)] |}).
  { rewrite (conversation_unfold message c s T), Hids.
    apply bind_rejected. rewrite (for_of_app_run _ _ _ _ _ _ E).
    rewrite for_of_cons.
    rewrite (bind_rejected _ _ _ _ _ _
               (companyStep_rejected message i0 (s ++ added) H0' V0)).
    reflexivity. }
  rewrite R, E. cbn [outcome final journal].
  split; [reflexivity|]. split; [reflexivity|]. split; [|split].
  - intros i Hin.
    pose proof (proj2 (company_present_after_loop message before s i V Hin)) as P.
    rewrite E in P. exact P.
  - rewrite searches_app, map_app.
    pose proof (for_of_companies_searches message before s V) as S.
    rewrite E in S. cbn [journal] in S. rewrite S. reflexivity.
  - rewrite count_matching_app, (count_customer_added message c added).
    + apply Nat.add_0_r.
    + eapply Forall_impl; [|exact F]. intros r (i & s' & _ & ->). eauto.
Qed.

(** X5: a customer with no company, whether [companyIds] is missing or an
    empty array, gets the customer-level pair only: one search for the
    customer record and, when there is none, one insert.  The call resolves
    with no record when one is found, with the new record when the store
    accepts it, and is rejected with the collection unchanged when the
    store refuses it. *)
Theorem conversation_without_companies
        (message : Message) (c : Customer) (s : Collection) :
  (companyIds c = None \/ companyIds c = Some []) ->
  truthy (customer_id c) = true ->
  (has_matching (customerQuery message c) s = true ->
   createConversationMessageLog message (Some c) s =
   {| outcome := Resolved None; final := s;
      journal := [call_findOne (customerQuery message c)] |})
  /\ (has_matching (customerQuery message c) s = false ->
      validate (customerDoc message c) = true ->
      createConversationMessageLog message (Some c) s =
      {| outcome := Resolved (Some (written (customerDoc message c) s));
         final := s ++ [written (customerDoc message c) s];
         journal := [call_findOne (customerQuery message c);
                     call_create (customerDoc message c)] |})
  /\ (has_matching (customerQuery message c) s = false ->
      validate (customerDoc message c) = false ->
      createConversationMessageLog message (Some c) s =
      {| outcome := Rejected (ValidationError (customerDoc message c));
         final := s;
         journal := [call_findOne (customerQuery message c);
                     call_create (customerDoc message c)] |}).
Proof.
  intros N T.
  assert (Ids : company_ids c = []).
  { unfold company_ids. destruct N as [-> | ->]; reflexivity. }
  rewrite (conversation_unfold message c s T), Ids.
  assert (L : for_of [] (companyStep message) s
              = {| outcome := Resolved tt; final := s; journal := [] |}) by reflexivity.
  rewrite (bind_resolved _ _ _ _ _ _ L).
  split; [|split].
  - intros H. rewrite (customer_pair_found message c s H). reflexivity.
  - intros H V. rewrite (customer_pair_fresh message c s H V). reflexivity.
  - intros H V. rewrite (customer_pair_rejected message c s H V). reflexivity.
Qed.

(** X6: on documents the store accepts, one call searches once for every
    entry of [customer.companyIds], repeated entries included and in the
    order of the list, and then once for the customer: [length companyIds
    + 1] searches whatever the collection holds, and never more inserts
    than searches. *)
Theorem conversation_searches_every_entry
        (message : Message) (c : Customer) (s : Collection) :
  truthy (customer_id c) = true ->
  conversationValid message c = true ->
  searches (journal (createConversationMessageLog message (Some c) s))
  = map (fun i => call_findOne (companyQuery message i)) (company_ids c)
    ++ [call_findOne (customerQuery message c)]
  /\ length (inserts (journal (createConversationMessageLog message (Some c) s)))
     <= length (searches (journal (createConversationMessageLog message (Some c) s))).
Proof.
  intros T V.
  pose proof V as V'. unfold conversationValid in V'.
  apply andb_true_iff in V' as [Vs Vc].
  destruct (for_of_companies message (company_ids c) s Vs) as (added & j & E & F & C & L).
  pose proof (for_of_companies_searches message (company_ids c) s Vs) as S.
  rewrite E in S. cbn [journal] in S.
  assert (F' : Forall (fun r => exists i s', r = written (companyDoc message i) s') added).
  { eapply Forall_impl; [|exact F]. intros r (i & s' & _ & Hr). eauto. }
  assert (Hc : has_matching (customerQuery message c) (s ++ added)
               = has_matching (customerQuery message c) s).
  { rewrite has_matching_app, (has_customer_added message c added F').
    apply orb_false_r. }
  assert (B : length added <= length (company_ids c)).
  { destruct (for_of_companies_any message (company_ids c) s)
      as (added' & j' & E' & _ & _ & L' & _).
    rewrite E in E'. cbn [final] in E'. apply app_inv_head in E'. subst added'.
    exact L'. }
  rewrite (conversation_unfold message c s T).
  rewrite (bind_resolved _ _ _ _ _ _ E).
  destruct (has_matching (customerQuery message c) s) eqn:Hs.
  - rewrite (customer_pair_found message c _ Hc). cbn [journal].
    rewrite searches_app, inserts_app, S, !length_app, length_map, L.
    split; [reflexivity|]. cbn. lia.
  - rewrite (customer_pair_fresh message c _ Hc Vc). cbn [journal].
    rewrite searches_app, inserts_app, S, !length_app, length_map, L.
    split; [reflexivity|]. cbn. lia.
Qed.

Lemma first_missing_ext p p' ids :
  (forall x, p x = p' x) -> first_missing p ids = first_missing p' ids.
Proof.
  revert p p'. induction ids as [|i rest IH]; intros p p' H; [reflexivity|].
  cbn [first_missing]. rewrite (H i).
  destruct (p' i); [apply IH; assumption|].
  f_equal. apply IH. intros x. rewrite (H x). reflexivity.
Qed.

Lemma skipn_app_exact {A} (l l' : list A) : skipn (length l) (l ++ l') = l'.
Proof. induction l as [|x l IH]; [reflexivity | exact IH]. Qed.

(** The cocs of the records the loop appends: the companies that had no
    record, each where it is first listed. *)
Lemma for_of_companies_order m ids : forall s,
  forallb (fun i => validate (companyDoc m i)) ids = true ->
  exists added,
    final (for_of ids (companyStep m) s) = s ++ added
    /\ map coc added
       = map (fun i => {| coc_id := Some i; coc_type := COC_CONTENT_TYPES.COMPANY |})
             (first_missing (fun i => has_matching (companyQuery m i) s) ids).
Proof.
  induction ids as [|i0 rest IH]; intros s V.
  - exists []. cbn. rewrite app_nil_r. split; reflexivity.
  - cbn [forallb] in V. apply andb_true_iff in V as [V0 Vrest].
    rewrite for_of_cons. cbn [first_missing].
    destruct (has_matching (companyQuery m i0) s) eqn:H0.
    + rewrite (bind_resolved _ _ _ _ _ _ (companyStep_found m i0 s H0)).
      cbn [final]. apply IH; assumption.
    + rewrite (bind_resolved _ _ _ _ _ _ (companyStep_fresh m i0 s H0 V0)).
      cbn [final].
      destruct (IH (s ++ [written (companyDoc m i0) s]) Vrest) as (added & E & M).
      exists (written (companyDoc m i0) s :: added). split.
      * rewrite E, <- app_assoc. reflexivity.
      * cbn [map]. f_equal. rewrite M. f_equal.
        apply first_missing_ext. intros x.
        rewrite has_matching_app, has_matching_one, matches_company_written.
        rewrite (String.eqb_sym i0 x). apply orb_comm.
Qed.

(** X7: on documents the store accepts, the records one call appends are,
    in this order: one for each listed company that had no record, placed
    where the company is first listed, then one for the customer if the
    customer had none.  Companies that had a record, and later occurrences
    of a company, add nothing. *)
Theorem conversation_appends_in_list_order
        (message : Message) (c : Customer) (s : Collection) :
  truthy (customer_id c) = true ->
  conversationValid message c = true ->
  map coc (appended s (createConversationMessageLog message (Some c) s))
  = map (fun i => {| coc_id := Some i; coc_type := COC_CONTENT_TYPES.COMPANY |})
        (first_missing (fun i => has_matching (companyQuery message i) s)
                       (company_ids c))
    ++ (if has_matching (customerQuery message c) s then []
        else [ {| coc_id := customer_id c; coc_type := COC_CONTENT_TYPES.CUSTOMER |} ]).
Proof.
  intros T V.
  pose proof V as V'. unfold conversationValid in V'.
  apply andb_true_iff in V' as [Vs Vc].
  destruct (for_of_companies message (company_ids c) s Vs) as (added & j & E & F & _).
  destruct (for_of_companies_order message (company_ids c) s Vs) as (added' & E' & M).
  rewrite E in E'. cbn [final] in E'. apply app_inv_head in E'. subst added'.
  assert (F' : Forall (fun r => exists i s', r = written (companyDoc message i) s') added).
  { eapply Forall_impl; [|exact F]. intros r (i & s' & _ & Hr). eauto. }
  assert (Hc : has_matching (customerQuery message c) (s ++ added)
               = has_matching (customerQuery message c) s).
  { rewrite has_matching_app, (has_customer_added message c added F').
    apply orb_false_r. }
  unfold appended.
  rewrite (conversation_unfold message c s T).
  rewrite (bind_resolved _ _ _ _ _ _ E).
  destruct (has_matching (customerQuery message c) s) eqn:Hs.
  - rewrite (customer_pair_found message c _ Hc). cbn [final].
    rewrite skipn_app_exact, app_nil_r. exact M.
  - rewrite (customer_pair_fresh message c _ Hc Vc). cbn [final].
    rewrite <- app_assoc, skipn_app_exact, map_app, M. reflexivity.
Qed.

(** ** Segment logs on any input *)

Lemma matches_segmentQuery_written_any (g g' : Segment) (c c' : Id) (s : Collection) :
  matches (segmentQuery g c) (written (docOf (segmentDoc g' c')) s)
  = Id_eqb (segment_id g') (segment_id g)
    && (COC_CONTENT_TYPES.eqb (segment_contentType g') (segment_contentType g)
        && Id_eqb c' c).
Proof.
  unfold matches, segmentQuery, written; simpl.
  rewrite !andb_true_r. reflexivity.
Qed.

Lemma segment_rejected g c s :
  find (matches (segmentQuery g (related_id c))) s = None ->
  validate (docOf (segmentDoc g (related_id c))) = false ->
  createSegmentLog g (Some c) s =
  {| outcome := Rejected (ValidationError (docOf (segmentDoc g (related_id c))));
     final := s;
     journal := [call_findOne (segmentQuery g (related_id c));
                 call_create (docOf (segmentDoc g (related_id c)))] |}.
Proof.
  intros H V. unfold createSegmentLog, findOne, bind; cbn [outcome final journal].
  rewrite H. unfold createDoc, create. rewrite V. reflexivity.
Qed.

(** X8: for every segment key (segment identifier, content type, coc
    identifier), [createSegmentLog] leaves at most one matching record where
    there was at most one, whatever its arguments and whether the store
    accepts its document or not; and it never removes or changes a record:
    the collection after the call is the one before, with at most one
    record appended. *)
Theorem segment_keeps_keys_unique
        (segment : Segment) (customer : option Related) (s : Collection)
        (key : Segment) (cocId : Id) :
  (exists added,
      final (createSegmentLog segment customer s) = s ++ added
      /\ length added <= 1)
  /\ count_matching (segmentQuery key cocId) (final (createSegmentLog segment customer s))
     <= Nat.max 1 (count_matching (segmentQuery key cocId) s).
Proof.
  destruct customer as [c|].
  2:{ cbn [createSegmentLog throw final].
      split; [exists []; rewrite app_nil_r; auto | lia]. }
  destruct (find (matches (segmentQuery segment (related_id c))) s) as [found|] eqn:H.
  - rewrite (segment_found _ _ _ _ H). cbn [final].
    split; [exists []; rewrite app_nil_r; auto | lia].
  - destruct (validate (docOf (segmentDoc segment (related_id c)))) eqn:V.
    + rewrite (segment_fresh _ _ _ H V). cbn [final].
      split; [eexists; split; [reflexivity | simpl; lia]|].
      rewrite count_matching_app, count_matching_one, matches_segmentQuery_written_any.
      destruct (Id_eqb (segment_id segment) (segment_id key)) eqn:E1; cbn [andb]; [|lia].
      destruct (COC_CONTENT_TYPES.eqb (segment_contentType segment)
                                      (segment_contentType key)) eqn:E2;
        cbn [andb]; [|lia].
      destruct (Id_eqb (related_id c) cocId) eqn:E3; [|lia].
      apply Id_eqb_eq in E1, E3. apply coc_type_eqb_eq in E2.
      assert (Q : segmentQuery key cocId = segmentQuery segment (related_id c)).
      { unfold segmentQuery. rewrite E1, E2, E3. reflexivity. }
      rewrite Q.
      pose proof (has_matching_find (segmentQuery segment (related_id c)) s) as Hf.
      rewrite H, has_matching_count in Hf.
      destruct (Nat.eqb_spec
                  (count_matching (segmentQuery segment (related_id c)) s) 0);
        [lia | discriminate].
    + rewrite (segment_rejected _ _ _ H V). cbn [final].
      split; [exists []; rewrite app_nil_r; auto | lia].
Qed.

(** X9: the guard of [createSegmentLog] tests that the customer or company
    is there, not that it has an [_id].  For every customer that is present,
    with or without [_id], the call is never rejected with the error of the
    guard: it searches once, with the identifier it was given, and when
    nothing matches it hands the document to the store; if the store refuses
    it the call is rejected with that validation error and the collection is
    unchanged. *)
Theorem segment_guard_tests_presence_only
        (segment : Segment) (c : Related) (s : Collection) :
  (forall msg, outcome (createSegmentLog segment (Some c) s) <> Rejected (Error msg))
  /\ searches (journal (createSegmentLog segment (Some c) s))
     = [call_findOne (segmentQuery segment (related_id c))]
  /\ (find (matches (segmentQuery segment (related_id c))) s = None ->
      validate (docOf (segmentDoc segment (related_id c))) = false ->
      createSegmentLog segment (Some c) s =
      {| outcome := Rejected (ValidationError (docOf (segmentDoc segment (related_id c))));
         final := s;
         journal := [call_findOne (segmentQuery segment (related_id c));
                     call_create (docOf (segmentDoc segment (related_id c)))] |}).
Proof.
  split; [|split].
  - intros msg.
    destruct (find (matches (segmentQuery segment (related_id c))) s) as [found|] eqn:H.
    + rewrite (segment_found _ _ _ _ H). discriminate.
    + destruct (validate (docOf (segmentDoc segment (related_id c)))) eqn:V.
      * rewrite (segment_fresh _ _ _ H V). discriminate.
      * rewrite (segment_rejected _ _ _ H V). discriminate.
  - destruct (find (matches (segmentQuery segment (related_id c))) s) as [found|] eqn:H.
    + rewrite (segment_found _ _ _ _ H). reflexivity.
    + destruct (validate (docOf (segmentDoc segment (related_id c)))) eqn:V.
      * rewrite (segment_fresh _ _ _ H V). reflexivity.
      * rewrite (segment_rejected _ _ _ H V). reflexivity.
  - apply segment_rejected.
Qed.

(** ** How the helpers compose *)

Lemma createDoc_count q arg s :
  count_matching q (final (createDoc arg s))
  = count_matching q s
    + (if validate (docOf arg) && matches q (written (docOf arg) s) then 1 else 0).
Proof.
  unfold createDoc, create.
  destruct (validate (docOf arg)); cbn [final andb].
  - rewrite count_matching_app, count_matching_one. reflexivity.
  - lia.
Qed.

(** X10: the two duplicate checks do not see each other's records.  A call
    of [createConversationMessageLog] leaves, for every segment key, the
    matching records as they were, and a call of [createSegmentLog] leaves,
    for every conversation key, the matching records as they were; this
    holds for all arguments, accepted by the store or not. *)
Theorem duplicate_checks_are_independent
        (message : Message) (customer : option Customer)
        (segment : Segment) (related : option Related) (s : Collection) :
  (forall key cocId,
      count_matching (segmentQuery key cocId)
                     (final (createConversationMessageLog message customer s))
      = count_matching (segmentQuery key cocId) s)
  /\ (forall messageId cocId cocType,
         count_matching (cocQuery messageId cocId cocType)
                        (final (createSegmentLog segment related s))
         = count_matching (cocQuery messageId cocId cocType) s).
Proof.
  split.
  - intros key cocId.
    destruct (customer_cases customer) as [G | (c & -> & T)].
    + rewrite (conversation_guard message customer s G). reflexivity.
    + destruct (conversation_any message c s T) as (added & E & F & _).
      rewrite E, count_matching_app, (count_matching_none _ added); [apply Nat.add_0_r|].
      eapply Forall_impl; [|exact F].
      intros r (s' & [(i & ->) | ->]); reflexivity.
  - intros messageId cocId cocType.
    destruct related as [c|]; [|reflexivity].
    destruct (find (matches (segmentQuery segment (related_id c))) s) as [found|] eqn:H.
    + rewrite (segment_found _ _ _ _ H). reflexivity.
    + destruct (validate (docOf (segmentDoc segment (related_id c)))) eqn:V.
      * rewrite (segment_fresh _ _ _ H V). cbn [final].
        rewrite count_matching_app, count_matching_one. cbn. apply Nat.add_0_r.
      * rewrite (segment_rejected _ _ _ H V). reflexivity.
Qed.

(** X11: the logs of internal notes and of customer and company
    registrations never count as duplicates: after
    [createInternalNoteLog], [createCustomerRegistrationLog] or
    [createCompanyRegistrationLog], for all arguments, every conversation key
    and every segment key has the matching records it had before. *)
Theorem plain_logs_leave_duplicate_checks_alone
        (note : InternalNote) (author : User)
        (customer : Customer) (company : Company) (user : option User)
        (s : Collection)
        (messageId cocId : Id) (cocType : COC_CONTENT_TYPES.t)
        (key : Segment) (keyId : Id) :
  count_matching (cocQuery messageId cocId cocType)
                 (final (createInternalNoteLog note author s))
  = count_matching (cocQuery messageId cocId cocType) s
  /\ count_matching (segmentQuery key keyId)
                    (final (createInternalNoteLog note author s))
     = count_matching (segmentQuery key keyId) s
  /\ count_matching (cocQuery messageId cocId cocType)
                    (final (createCustomerRegistrationLog customer user s))
     = count_matching (cocQuery messageId cocId cocType) s
  /\ count_matching (segmentQuery key keyId)
                    (final (createCustomerRegistrationLog customer user s))
     = count_matching (segmentQuery key keyId) s
  /\ count_matching (cocQuery messageId cocId cocType)
                    (final (createCompanyRegistrationLog company user s))
     = count_matching (cocQuery messageId cocId cocType) s
  /\ count_matching (segmentQuery key keyId)
                    (final (createCompanyRegistrationLog company user s))
     = count_matching (segmentQuery key keyId) s.
Proof.
  unfold createInternalNoteLog, createCustomerRegistrationLog,
    createCompanyRegistrationLog.
  rewrite !createDoc_count.
  repeat split;
    match goal with
    | |- _ + (if ?v && ?m then 1 else 0) = _ =>
        replace m with false by reflexivity;
        rewrite andb_false_r; apply Nat.add_0_r
    end.
Qed.

(** ** Logs that are not deduplicated *)

Lemma createDoc_twice arg s :
  validate (docOf arg) = true ->
  fst (twice (createDoc arg) s) =
  {| outcome := Resolved (written (docOf arg) s);
     final := s ++ [written (docOf arg) s];
     journal := [call_create (docOf arg)] |}
  /\ snd (twice (createDoc arg) s) =
     {| outcome := Resolved (written (docOf arg) (s ++ [written (docOf arg) s]));
        final := s ++ [written (docOf arg) s;
                       written (docOf arg) (s ++ [written (docOf arg) s])];
        journal := [call_create (docOf arg)] |}.
Proof.
  intros V. unfold twice; cbn [fst snd].
  rewrite (createDoc_accepted arg s V). cbn [final].
  rewrite (createDoc_accepted arg _ V). rewrite <- app_assoc. split; reflexivity.
Qed.

Lemma registrationPerformer_written user d_act d_c s :
  performedBy (written {| d_performedBy :=
                            match registrationPerformer user with
                            | Some p => p
                            | None => {| p_type := Some ACTIVITY_PERFORMER_TYPES.SYSTEM;
                                         p_id := None |}
                            end;
                          d_activity := d_act; d_coc := d_c |} s)
  = registered_by user.
Proof.
  unfold registrationPerformer, registered_by.
  destruct user as [u|]; [|reflexivity].
  destruct (truthy (user_id u)); reflexivity.
Qed.

(** X12: [createCustomerRegistrationLog] does not check for duplicates.
    When the store accepts the document, two calls in sequence with the
    same arguments make no search and append two records, each with
    [activity = {type: CUSTOMER, action: CREATE, content: customer.name,
    id: customer._id}], [coc = {type: CUSTOMER, id: customer._id}] and, as
    performer, [{type: USER, id: user._id}] when the user has a non-empty
    [_id] and [{type: SYSTEM}] otherwise. *)
Theorem customer_registration_is_not_deduplicated
        (customer : Customer) (user : option User) (s : Collection) :
  validate (docOf (customerRegistrationDoc customer user)) = true ->
  exists k1 k2,
    outcome (fst (twice (createCustomerRegistrationLog customer user) s)) = Resolved k1
    /\ outcome (snd (twice (createCustomerRegistrationLog customer user) s)) = Resolved k2
    /\ final (snd (twice (createCustomerRegistrationLog customer user) s)) = s ++ [k1; k2]
    /\ searches (journal (fst (twice (createCustomerRegistrationLog customer user) s))
                 ++ journal (snd (twice (createCustomerRegistrationLog customer user) s)))
       = []
    /\ (forall k, k = k1 \/ k = k2 ->
          activity k =
          {| activity_type := ACTIVITY_TYPES.CUSTOMER;
             activity_action := ACTIVITY_ACTIONS.CREATE;
             activity_content := customer_name customer;
             activity_id := customer_id customer |}
          /\ coc k =
             {| coc_id := customer_id customer; coc_type := COC_CONTENT_TYPES.CUSTOMER |}
          /\ performedBy k = registered_by user).
Proof.
  intros V. unfold createCustomerRegistrationLog.
  destruct (createDoc_twice _ s V) as [R1 R2]. rewrite R1, R2.
  cbn [outcome final journal]. do 2 eexists.
  split; [reflexivity|]. split; [reflexivity|]. split; [reflexivity|].
  split; [reflexivity|].
  intros k [-> | ->]; (split; [reflexivity|]); (split; [reflexivity|]);
    apply registrationPerformer_written.
Qed.

(** X13: [createCompanyRegistrationLog] does not check for duplicates
    either.  When the store accepts the document, two calls in sequence
    with the same arguments make no search and append two records, each
    with [activity = {type: COMPANY, action: CREATE, content: company.name,
    id: company._id}], [coc = {type: COMPANY, id: company._id}] and, as
    performer, [{type: USER, id: user._id}] when the user has a non-empty
    [_id] and [{type: SYSTEM}] otherwise. *)
Theorem company_registration_is_not_deduplicated
        (company : Company) (user : option User) (s : Collection) :
  validate (docOf (companyRegistrationDoc company user)) = true ->
  exists k1 k2,
    outcome (fst (twice (createCompanyRegistrationLog company user) s)) = Resolved k1
    /\ outcome (snd (twice (createCompanyRegistrationLog company user) s)) = Resolved k2
    /\ final (snd (twice (createCompanyRegistrationLog company user) s)) = s ++ [k1; k2]
    /\ searches (journal (fst (twice (createCompanyRegistrationLog company user) s))
                 ++ journal (snd (twice (createCompanyRegistrationLog company user) s)))
       = []
    /\ (forall k, k = k1 \/ k = k2 ->
          activity k =
          {| activity_type := ACTIVITY_TYPES.COMPANY;
             activity_action := ACTIVITY_ACTIONS.CREATE;
             activity_content := company_name company;
             activity_id := company_id company |}
          /\ coc k =
             {| coc_id := company_id company; coc_type := COC_CONTENT_TYPES.COMPANY |}
          /\ performedBy k = registered_by user).
Proof.
  intros V. unfold createCompanyRegistrationLog.
  destruct (createDoc_twice _ s V) as [R1 R2]. rewrite R1, R2.
  cbn [outcome final journal]. do 2 eexists.
  split; [reflexivity|]. split; [reflexivity|]. split; [reflexivity|].
  split; [reflexivity|].
  intros k [-> | ->]; (split; [reflexivity|]); (split; [reflexivity|]);
    apply registrationPerformer_written.
Qed.

(** X14: [createInternalNoteLog] called twice in sequence for the same note
    and user appends two records when the store accepts the document: the
    same activity, performer and coc twice, told apart only by what the
    store assigns ([_id], [createdAt]). *)
Theorem internal_note_is_not_deduplicated
        (note : InternalNote) (user : User) (s : Collection) :
  validate (docOf (internalNoteDoc note user)) = true ->
  exists k1 k2,
    outcome (fst (twice (createInternalNoteLog note user) s)) = Resolved k1
    /\ outcome (snd (twice (createInternalNoteLog note user) s)) = Resolved k2
    /\ final (snd (twice (createInternalNoteLog note user) s)) = s ++ [k1; k2]
    /\ activity k1 = activity k2
    /\ performedBy k1 = performedBy k2
    /\ coc k1 = coc k2
    /\ activity_id (activity k1) = note_id note
    /\ _id k1 = Random_id s /\ _id k2 = Random_id (s ++ [k1])
    /\ createdAt k1 = Date_now s /\ createdAt k2 = Date_now (s ++ [k1]).
Proof.
  intros V. unfold createInternalNoteLog.
  destruct (createDoc_twice _ s V) as [R1 R2]. rewrite R1, R2.
  cbn [outcome final journal]. do 2 eexists.
  repeat (split; [reflexivity|]). reflexivity.
Qed.

(** ** Insert, then look up *)

Lemma find_app_left q s l r :
  find (matches q) s = Some r -> find (matches q) (s ++ l) = Some r.
Proof.
  induction s as [|x s IH]; cbn [app find]; [discriminate|].
  destruct (matches q x); auto.
Qed.

Lemma find_app_miss q s n :
  matches q n = false -> find (matches q) (s ++ [n]) = find (matches q) s.
Proof.
  intros N. induction s as [|x s IH]; cbn [app find].
  - rewrite N. reflexivity.
  - destruct (matches q x); [reflexivity | exact IH].
Qed.

(** X15: a record written by [cocCreate] is what [cocFindOne] looks for.
    After [cocCreate(messageId, content, cocId, cocType)] on a document the
    store accepts, [cocFindOne] with the same message, coc identifier and
    coc type finds a record: the new one when there was none before, the
    older one otherwise.  A [cocFindOne] that differs in the message, the
    identifier or the type gives the answer it gave before the insert. *)
Theorem cocCreate_then_cocFindOne
        (messageId : Id) (content : Mixed) (cocId : Id)
        (cocType : COC_CONTENT_TYPES.t) (s : Collection) :
  validate (docOf (cocDoc messageId content cocId cocType)) = true ->
  let s' := final (cocCreate messageId content cocId cocType s) in
  let new := written (docOf (cocDoc messageId content cocId cocType)) s in
  (forall old,
      find (matches (cocQuery messageId cocId cocType)) s = Some old ->
      outcome (cocFindOne messageId cocId cocType s') = Resolved (Some old))
  /\ (find (matches (cocQuery messageId cocId cocType)) s = None ->
      outcome (cocFindOne messageId cocId cocType s') = Resolved (Some new))
  /\ (forall messageId' cocId' cocType',
         (messageId', cocId', cocType') <> (messageId, cocId, cocType) ->
         outcome (cocFindOne messageId' cocId' cocType' s')
         = outcome (cocFindOne messageId' cocId' cocType' s)).
Proof.
  intros V s' new. unfold s', cocCreate.
  rewrite (createDoc_accepted _ s V). cbn [final]. fold new.
  unfold cocFindOne, findOne; cbn [outcome].
  assert (M : forall m' c' t',
             matches (cocQuery m' c' t') new
             = Id_eqb messageId m' && (COC_CONTENT_TYPES.eqb cocType t' && Id_eqb cocId c')).
  { intros. apply matches_cocQuery_written_any. }
  split; [|split].
  - intros old H. f_equal. apply find_app_left. assumption.
  - intros H. f_equal.
    rewrite (find_app_fresh _ _ _ H). cbn [find].
    rewrite M, Id_eqb_refl, coc_type_eqb_refl, Id_eqb_refl. reflexivity.
  - intros m' c' t' Hne. f_equal. apply find_app_miss.
    rewrite M.
    destruct (Id_eqb messageId m') eqn:E1; [|reflexivity].
    destruct (COC_CONTENT_TYPES.eqb cocType t') eqn:E2; [|reflexivity].
    destruct (Id_eqb cocId c') eqn:E3; [|reflexivity].
    apply Id_eqb_eq in E1, E3. apply coc_type_eqb_eq in E2.
    subst. contradiction Hne. reflexivity.
Qed.

(** ** Defaults of the schema *)


End ActivityLog.

(** ** The theorems at sample inputs *)

Lemma conversation_without_customer_rejected_witness :
  (Some unsaved_customer = None \/
   exists c, Some unsaved_customer = Some c /\ truthy (customer_id c) = false)
  /\ createConversationMessageLog required_coc_id sample_id sample_now
       sample_message (Some unsaved_customer) duplicated_store =
     {| outcome := Rejected (Error customer_must_be_supplied_for_conversations);
        final := duplicated_store;
        journal := [] |}.
Proof.
  assert (H : Some unsaved_customer = None \/
              exists c, Some unsaved_customer = Some c /\ truthy (customer_id c) = false).
  { right. exists unsaved_customer. split; reflexivity. }
  split; [exact H|].
  exact (conversation_without_customer_rejected required_coc_id sample_id sample_now
           sample_message (Some unsaved_customer) duplicated_store H).
Defined.

Lemma default_performer_is_system_witness :
  (@None User = None \/
   exists u, @None User = Some u /\ truthy (user_id u) = false)
  /\ required_coc_id (docOf (customerRegistrationDoc sample_customer None)) = true
  /\ exists r,
      createCustomerRegistrationLog required_coc_id sample_id sample_now
        sample_customer None segment_store =
      {| outcome := Resolved r; final := segment_store ++ [r];
         journal := [call_create (docOf (customerRegistrationDoc sample_customer None))] |}
      /\ performedBy r =
         {| performer_type := ACTIVITY_PERFORMER_TYPES.SYSTEM; performer_id := None |}.
Proof.
  assert (H : @None User = None \/
              exists u, @None User = Some u /\ truthy (user_id u) = false)
    by (left; reflexivity).
  split; [exact H|]. split; [reflexivity|].
  exact (proj2 (default_performer_is_system required_coc_id sample_id sample_now)
           sample_customer None segment_store H eq_refl).
Defined.

Lemma internal_note_logged_witness :
  required_coc_id (docOf (internalNoteDoc sample_note sample_user)) = true
  /\ exists r,
      createInternalNoteLog required_coc_id sample_id sample_now
        sample_note sample_user segment_store =
      {| outcome := Resolved r; final := segment_store ++ [r];
         journal := [call_create (docOf (internalNoteDoc sample_note sample_user))] |}
      /\ activity r =
         {| activity_type := ACTIVITY_TYPES.INTERNAL_NOTE;
            activity_action := ACTIVITY_ACTIONS.CREATE;
            activity_content := MString "call back";
            activity_id := Some "n1" |}
      /\ performedBy r =
         {| performer_type := ACTIVITY_PERFORMER_TYPES.USER;
            performer_id := Some "u1" |}
      /\ coc r =
         {| coc_id := Some "cust1"; coc_type := COC_CONTENT_TYPES.CUSTOMER |}.
Proof.
  split; [reflexivity|].
  exact (proj2 (internal_note_logged required_coc_id sample_id sample_now
                  sample_note sample_user segment_store) eq_refl).
Defined.

Lemma duplicate_check_keys_on_customer_performer_witness :
  truthy (customer_id lone_customer) = true
  /\ conversationValid required_coc_id sample_message lone_customer = true
  /\ (forall r id t,
        In r other_performers_store -> In (id, t) (targets lone_customer) ->
        sameMessageAndCoc (message_id sample_message) id t r = true ->
        performer_type (performedBy r) = ACTIVITY_PERFORMER_TYPES.SYSTEM
        \/ performer_type (performedBy r) = ACTIVITY_PERFORMER_TYPES.USER)
  /\ exists added new,
      outcome (createConversationMessageLog required_coc_id sample_id sample_now
                 sample_message (Some lone_customer) other_performers_store)
      = Resolved (Some new)
      /\ final (createConversationMessageLog required_coc_id sample_id sample_now
                  sample_message (Some lone_customer) other_performers_store)
         = other_performers_store ++ added
      /\ In new added
      /\ performedBy new =
         {| performer_type := ACTIVITY_PERFORMER_TYPES.CUSTOMER; performer_id := None |}.
Proof.
  assert (H : forall r id t,
             In r other_performers_store -> In (id, t) (targets lone_customer) ->
             sameMessageAndCoc (message_id sample_message) id t r = true ->
             performer_type (performedBy r) = ACTIVITY_PERFORMER_TYPES.SYSTEM
             \/ performer_type (performedBy r) = ACTIVITY_PERFORMER_TYPES.USER).
  { intros r id t [<- | [<- | []]] _ _; [left | right]; reflexivity. }
  split; [reflexivity|]. split; [reflexivity|]. split; [exact H|].
  destruct (duplicate_check_keys_on_customer_performer required_coc_id sample_id
              sample_now sample_message lone_customer other_performers_store
              eq_refl eq_refl H)
    as (_ & added & new & O & E & Hin & P & _).
  exists added, new. repeat split; assumption.
Defined.

Lemma conversation_returns_new_customer_record_or_nothing_witness :
  truthy (customer_id sample_customer) = true
  /\ conversationValid required_coc_id sample_message sample_customer = true
  /\ exists companies,
      (forall existing,
          find (matches (customerQuery sample_message sample_customer))
               (duplicated_store ++ companies) = Some existing ->
          outcome (createConversationMessageLog required_coc_id sample_id sample_now
                     sample_message (Some sample_customer) duplicated_store)
          = Resolved None).
Proof.
  split; [reflexivity|]. split; [reflexivity|].
  destruct (conversation_returns_new_customer_record_or_nothing required_coc_id
              sample_id sample_now sample_message sample_customer duplicated_store
              eq_refl eq_refl)
    as (companies & _ & Found & _).
  exists companies. intros existing H. exact (proj1 (Found existing H)).
Defined.

Lemma repeated_company_inserted_once_witness :
  truthy (customer_id repeating_customer) = true
  /\ conversationValid required_coc_id sample_message repeating_customer = true
  /\ In "co1" (company_ids repeating_customer)
  /\ exists added,
      final (createConversationMessageLog required_coc_id sample_id sample_now
               sample_message (Some repeating_customer) []) = [] ++ added
      /\ count_matching (companyQuery sample_message "co1") added = 1.
Proof.
  assert (Hin : In "co1" (company_ids repeating_customer)) by (left; reflexivity).
  split; [reflexivity|]. split; [reflexivity|]. split; [exact Hin|].
  destruct (repeated_company_inserted_once required_coc_id sample_id sample_now
              sample_message repeating_customer [] "co1" eq_refl eq_refl Hin)
    as ((added & E & C & _) & _).
  exists added. split; assumption.
Defined.

Lemma two_companies_then_nothing_witness :
  companyIds sample_customer = Some ["co1"; "co2"]
  /\ truthy (customer_id sample_customer) = true
  /\ conversationValid required_coc_id sample_message sample_customer = true
  /\ has_matching (companyQuery sample_message "co1") other_performers_store = false
  /\ has_matching (companyQuery sample_message "co2") other_performers_store = false
  /\ has_matching (customerQuery sample_message sample_customer) other_performers_store = false
  /\ length (final (fst (twice (createConversationMessageLog required_coc_id sample_id
                                  sample_now sample_message (Some sample_customer))
                           other_performers_store)))
     <= length other_performers_store + 3
  /\ final (snd (twice (createConversationMessageLog required_coc_id sample_id
                          sample_now sample_message (Some sample_customer))
                   other_performers_store))
     = final (fst (twice (createConversationMessageLog required_coc_id sample_id
                            sample_now sample_message (Some sample_customer))
                     other_performers_store)).
Proof.
  repeat (split; [reflexivity|]).
  destruct (two_companies_then_nothing required_coc_id sample_id sample_now
              sample_message sample_customer "co1" "co2" other_performers_store
              eq_refl eq_refl eq_refl eq_refl eq_refl eq_refl)
    as (_ & Len & _ & _ & _ & _ & _ & _ & Same & _).
  split; assumption.
Defined.

Lemma conversation_twice_inserts_once_witness :
  truthy (customer_id sample_customer) = true
  /\ conversationValid required_coc_id sample_message sample_customer = true
  /\ inserts (journal (snd (twice (createConversationMessageLog required_coc_id
                                     sample_id sample_now sample_message
                                     (Some sample_customer))
                              duplicated_store))) = []
  /\ (forall id t,
        In (id, t) (targets sample_customer) ->
        count_matching (cocQuery (message_id sample_message) id t)
          (final (snd (twice (createConversationMessageLog required_coc_id
                                sample_id sample_now sample_message
                                (Some sample_customer))
                         duplicated_store)))
        = Nat.max 1 (count_matching (cocQuery (message_id sample_message) id t)
                       duplicated_store)).
Proof.
  split; [reflexivity|]. split; [reflexivity|].
  destruct (conversation_twice_inserts_once required_coc_id sample_id sample_now
              sample_message sample_customer duplicated_store eq_refl eq_refl)
    as (_ & _ & _ & None' & _ & Count).
  split; assumption.
Defined.

Lemma segment_logged_at_most_once_witness :
  required_coc_id (docOf (segmentDoc sample_segment (related_id sample_related))) = true
  /\ find (matches (segmentQuery sample_segment (related_id sample_related)))
          other_performers_store = None
  /\ (exists r,
        outcome (fst (twice (createSegmentLog required_coc_id sample_id sample_now
                               sample_segment (Some sample_related))
                        other_performers_store)) = Resolved r
        /\ outcome (snd (twice (createSegmentLog required_coc_id sample_id sample_now
                                  sample_segment (Some sample_related))
                           other_performers_store)) = Resolved r)
  /\ inserts (journal (fst (twice (createSegmentLog required_coc_id sample_id sample_now
                                     sample_segment (Some sample_related))
                              other_performers_store))
              ++ journal (snd (twice (createSegmentLog required_coc_id sample_id sample_now
                                        sample_segment (Some sample_related))
                                 other_performers_store)))
     = [call_create (docOf (segmentDoc sample_segment (related_id sample_related)))].
Proof.
  split; [reflexivity|]. split; [reflexivity|].
  destruct (segment_logged_at_most_once required_coc_id sample_id sample_now
              sample_segment sample_related other_performers_store)
    as (_ & _ & Fresh & Both).
  destruct (Fresh eq_refl eq_refl) as (_ & _ & _ & _ & _ & I).
  destruct (Both eq_refl) as (Same & _).
  split; assumption.
Defined.

(** ** Where the claims as first stated fail *)

(** C1 as first stated: two calls in sequence, starting from any collection,
    leave exactly one record per coc target.  A collection that already
    holds two records for the customer of the message (here written by two
    direct calls of [cocCreate]) still holds two after the calls. *)
Lemma conversation_twice_keeps_earlier_duplicates :
  duplicated_store
  = final (cocCreate required_coc_id sample_id sample_now
             (Some "m1") (MString "hello") (Some "cust1") COC_CONTENT_TYPES.CUSTOMER
             (final (cocCreate required_coc_id sample_id sample_now
                       (Some "m1") (MString "hello") (Some "cust1")
                       COC_CONTENT_TYPES.CUSTOMER [])))
  /\ truthy (customer_id lone_customer) = true
  /\ In (customer_id lone_customer, COC_CONTENT_TYPES.CUSTOMER) (targets lone_customer)
  /\ count_matching
       (cocQuery (message_id sample_message) (customer_id lone_customer)
                 COC_CONTENT_TYPES.CUSTOMER)
       (final (snd (twice (createConversationMessageLog required_coc_id sample_id
                             sample_now sample_message (Some lone_customer))
                      duplicated_store))) = 2
  /\ count_matching
       (cocQuery (message_id sample_message) (customer_id lone_customer)
                 COC_CONTENT_TYPES.CUSTOMER)
       (final (snd (twice (createConversationMessageLog required_coc_id sample_id
                             sample_now sample_message (Some lone_customer))
                      duplicated_store))) <> 1.
Proof.
  split; [reflexivity|]. split; [reflexivity|]. split; [left; reflexivity|].
  split; [reflexivity | vm_compute; discriminate].
Qed.

(** C2 as first stated: two calls in sequence cause exactly one insert in
    total.  When the collection already holds the record (here written by
    an earlier call with the same arguments), both calls resolve with it
    and neither inserts. *)
Lemma segment_twice_after_existing_inserts_nothing :
  segment_store
  = final (createSegmentLog required_coc_id sample_id sample_now
             sample_segment (Some sample_related) [])
  /\ outcome (fst (twice (createSegmentLog required_coc_id sample_id sample_now
                         sample_segment (Some sample_related))
                  segment_store))
  = outcome (snd (twice (createSegmentLog required_coc_id sample_id sample_now
                           sample_segment (Some sample_related))
                    segment_store))
  /\ final (snd (twice (createSegmentLog required_coc_id sample_id sample_now
                          sample_segment (Some sample_related))
                   segment_store)) = segment_store
  /\ length (inserts
               (journal (fst (twice (createSegmentLog required_coc_id sample_id sample_now
                                       sample_segment (Some sample_related))
                                segment_store))
                ++ journal (snd (twice (createSegmentLog required_coc_id sample_id
                                          sample_now sample_segment (Some sample_related))
                                   segment_store)))) <> 1.
Proof.
  split; [reflexivity|]. split; [reflexivity|]. split; [reflexivity|].
  vm_compute; discriminate.
Qed.

(** ** Further properties at sample inputs *)

Lemma conversation_retry_writes_nothing_witness :
  outcome (fst (twice (createConversationMessageLog required_coc_id sample_id sample_now
                         sample_message (Some blank_company_customer)) []))
  = Rejected (ValidationError (companyDoc sample_message ""))
  /\ outcome (snd (twice (createConversationMessageLog required_coc_id sample_id
                            sample_now sample_message (Some blank_company_customer)) []))
     = Rejected (ValidationError (companyDoc sample_message ""))
  /\ final (snd (twice (createConversationMessageLog required_coc_id sample_id
                          sample_now sample_message (Some blank_company_customer)) []))
     = final (fst (twice (createConversationMessageLog required_coc_id sample_id
                            sample_now sample_message (Some blank_company_customer)) [])).
Proof.
  destruct (conversation_retry_writes_nothing required_coc_id sample_id sample_now
              sample_message (Some blank_company_customer) [])
    as (Same & Again & _).
  split; [reflexivity|]. split; [|exact Same].
  apply Again. reflexivity.
Defined.

Lemma conversation_stops_at_refused_company_witness :
  truthy (customer_id blank_company_customer) = true
  /\ company_ids blank_company_customer = ["co1"] ++ "" :: ["co2"]
  /\ forallb (fun i => required_coc_id (companyDoc sample_message i)) ["co1"] = true
  /\ required_coc_id (companyDoc sample_message "") = false
  /\ has_matching (companyQuery sample_message "") other_performers_store = false
  /\ outcome (createConversationMessageLog required_coc_id sample_id sample_now
                sample_message (Some blank_company_customer) other_performers_store)
     = Rejected (ValidationError (companyDoc sample_message ""))
  /\ searches (journal (createConversationMessageLog required_coc_id sample_id sample_now
                          sample_message (Some blank_company_customer)
                          other_performers_store))
     = map (fun i => call_findOne (companyQuery sample_message i)) (["co1"] ++ [""]).
Proof.
  repeat (split; [reflexivity|]).
  destruct (conversation_stops_at_refused_company required_coc_id sample_id sample_now
              sample_message blank_company_customer other_performers_store
              ["co1"] "" ["co2"] eq_refl eq_refl eq_refl eq_refl eq_refl)
    as (O & _ & _ & S & _).
  split; assumption.
Defined.

Lemma conversation_without_companies_witness :
  (companyIds lone_customer = None \/ companyIds lone_customer = Some [])
  /\ truthy (customer_id lone_customer) = true
  /\ has_matching (customerQuery sample_message lone_customer) duplicated_store = true
  /\ createConversationMessageLog required_coc_id sample_id sample_now
       sample_message (Some lone_customer) duplicated_store =
     {| outcome := Resolved None; final := duplicated_store;
        journal := [call_findOne (customerQuery sample_message lone_customer)] |}.
Proof.
  assert (N : companyIds lone_customer = None \/ companyIds lone_customer = Some [])
    by (left; reflexivity).
  split; [exact N|]. split; [reflexivity|]. split; [reflexivity|].
  exact (proj1 (conversation_without_companies required_coc_id sample_id sample_now
                  sample_message lone_customer duplicated_store N eq_refl) eq_refl).
Defined.

Lemma conversation_searches_every_entry_witness :
  truthy (customer_id repeating_customer) = true
  /\ conversationValid required_coc_id sample_message repeating_customer = true
  /\ searches (journal (createConversationMessageLog required_coc_id sample_id sample_now
                          sample_message (Some repeating_customer) []))
     = map (fun i => call_findOne (companyQuery sample_message i)) ["co1"; "co2"; "co1"]
       ++ [call_findOne (customerQuery sample_message repeating_customer)].
Proof.
  split; [reflexivity|]. split; [reflexivity|].
  exact (proj1 (conversation_searches_every_entry required_coc_id sample_id sample_now
                  sample_message repeating_customer [] eq_refl eq_refl)).
Defined.

Lemma conversation_appends_in_list_order_witness :
  truthy (customer_id repeating_customer) = true
  /\ conversationValid required_coc_id sample_message repeating_customer = true
  /\ map coc (appended other_performers_store
                (createConversationMessageLog required_coc_id sample_id sample_now
                   sample_message (Some repeating_customer) other_performers_store))
     = map (fun i => {| coc_id := Some i; coc_type := COC_CONTENT_TYPES.COMPANY |})
           (first_missing
              (fun i => has_matching (companyQuery sample_message i) other_performers_store)
              (company_ids repeating_customer))
       ++ (if has_matching (customerQuery sample_message repeating_customer)
                           other_performers_store
           then []
           else [ {| coc_id := customer_id repeating_customer;
                     coc_type := COC_CONTENT_TYPES.CUSTOMER |} ]).
Proof.
  split; [reflexivity|]. split; [reflexivity|].
  exact (conversation_appends_in_list_order required_coc_id sample_id sample_now
           sample_message repeating_customer other_performers_store eq_refl eq_refl).
Defined.

Lemma segment_guard_tests_presence_only_witness :
  find (matches (segmentQuery sample_segment (related_id unsaved_related))) segment_store
  = None
  /\ required_coc_id (docOf (segmentDoc sample_segment (related_id unsaved_related)))
     = false
  /\ createSegmentLog required_coc_id sample_id sample_now
       sample_segment (Some unsaved_related) segment_store =
     {| outcome := Rejected (ValidationError
                               (docOf (segmentDoc sample_segment
                                         (related_id unsaved_related))));
        final := segment_store;
        journal := [call_findOne (segmentQuery sample_segment (related_id unsaved_related));
                    call_create (docOf (segmentDoc sample_segment
                                          (related_id unsaved_related)))] |}.
Proof.
  split; [reflexivity|]. split; [reflexivity|].
  exact (proj2 (proj2 (segment_guard_tests_presence_only required_coc_id sample_id
                         sample_now sample_segment unsaved_related segment_store))
           eq_refl eq_refl).
Defined.

Lemma customer_registration_is_not_deduplicated_witness :
  required_coc_id (docOf (customerRegistrationDoc sample_customer (Some sample_user)))
  = true
  /\ exists k1 k2,
      final (snd (twice (createCustomerRegistrationLog required_coc_id sample_id
                           sample_now sample_customer (Some sample_user)) []))
      = [] ++ [k1; k2]
      /\ performedBy k1 = registered_by (Some sample_user)
      /\ performedBy k2 = registered_by (Some sample_user).
Proof.
  split; [reflexivity|].
  destruct (customer_registration_is_not_deduplicated required_coc_id sample_id
              sample_now sample_customer (Some sample_user) [] eq_refl)
    as (k1 & k2 & _ & _ & F & _ & K).
  exists k1, k2. split; [exact F|].
  split; [exact (proj2 (proj2 (K k1 (or_introl eq_refl))))
         | exact (proj2 (proj2 (K k2 (or_intror eq_refl))))].
Defined.

Lemma company_registration_is_not_deduplicated_witness :
  required_coc_id (docOf (companyRegistrationDoc sample_company None)) = true
  /\ exists k1 k2,
      final (snd (twice (createCompanyRegistrationLog required_coc_id sample_id
                           sample_now sample_company None) segment_store))
      = segment_store ++ [k1; k2]
      /\ performedBy k1 = registered_by None
      /\ performedBy k2 = registered_by None.
Proof.
  split; [reflexivity|].
  destruct (company_registration_is_not_deduplicated required_coc_id sample_id
              sample_now sample_company None segment_store eq_refl)
    as (k1 & k2 & _ & _ & F & _ & K).
  exists k1, k2. split; [exact F|].
  split; [exact (proj2 (proj2 (K k1 (or_introl eq_refl))))
         | exact (proj2 (proj2 (K k2 (or_intror eq_refl))))].
Defined.

Lemma internal_note_is_not_deduplicated_witness :
  required_coc_id (docOf (internalNoteDoc sample_note sample_user)) = true
  /\ exists k1 k2,
      final (snd (twice (createInternalNoteLog required_coc_id sample_id sample_now
                           sample_note sample_user) []))
      = [] ++ [k1; k2]
      /\ activity k1 = activity k2.
Proof.
  split; [reflexivity|].
  destruct (internal_note_is_not_deduplicated required_coc_id sample_id sample_now
              sample_note sample_user [] eq_refl)
    as (k1 & k2 & _ & _ & F & A & _).
  exists k1, k2. split; assumption.
Defined.

Lemma cocCreate_then_cocFindOne_witness :
  required_coc_id (docOf (cocDoc (Some "m1") (MString "hello") (Some "cust1")
                                 COC_CONTENT_TYPES.CUSTOMER)) = true
  /\ find (matches (cocQuery (Some "m1") (Some "cust1") COC_CONTENT_TYPES.CUSTOMER))
          other_performers_store = None
  /\ outcome (cocFindOne (Some "m1") (Some "cust1") COC_CONTENT_TYPES.CUSTOMER
                (final (cocCreate required_coc_id sample_id sample_now
                          (Some "m1") (MString "hello") (Some "cust1")
                          COC_CONTENT_TYPES.CUSTOMER other_performers_store)))
     = Resolved (Some (written sample_id sample_now
                         (docOf (cocDoc (Some "m1") (MString "hello") (Some "cust1")
                                        COC_CONTENT_TYPES.CUSTOMER))
                         other_performers_store)).
Proof.
  split; [reflexivity|]. split; [reflexivity|].
  destruct (cocCreate_then_cocFindOne required_coc_id sample_id sample_now
              (Some "m1") (MString "hello") (Some "cust1") COC_CONTENT_TYPES.CUSTOMER
              other_performers_store eq_refl)
    as (_ & Fresh & _).
  exact (Fresh eq_refl).
Defined.

